(** * studentData3.py: profile extraction and question answering

    A shallow embedding of the two computing parts of [studentData3.py]:
    [extract_student_info], which parses one generated profile into a
    record, and [answer_question], which computes an answer over the rows
    read back from the [student] table.

    Modelling conventions.
    - A Python [str] is a [string]; a character is a code point below 256
      (the Latin-1 block), with the whitespace, digit and lower-case tables
      Python uses on that block.
    - A Python [int] is a [Z]; [int(s)] converts a literal of at most 4300
      digits, the default of [sys.get_int_max_str_digits()], and raises
      [ValueError] on a longer one.
    - An [INTEGER] column of SQLite holds a signed 64-bit integer: binding
      a Python [int] outside that range raises [OverflowError].
    - A raised exception is the [Raise] case of [result]; [try]/[except] is
      [try_except].
    - A [numpy.float64] is a [spec_float] at precision 53.
    - The list of records, and the objects [answer_question] mutates in
      place, live in a store; the function is a state and error monad
      over it.
    - A set is iterated in an unspecified order, a parameter of the
      development ([SetIteration]). *)

From Stdlib Require Import ZArith Lia Ascii String.
From Stdlib Require Floats.SpecFloat.
From stdpp Require Import gmap strings list pretty.

#[local] Set Warnings "-clear-no-such-hyp".

Local Open Scope string_scope.
Local Open Scope list_scope.

(** ** Exceptions *)

Inductive exn :=
| IndexError | ValueError | AttributeError | KeyError | TypeError
| OverflowError.

Inductive result (A : Type) :=
| Ok (a : A)
| Raise (e : exn).
Arguments Ok {A} a.
Arguments Raise {A} e.

Definition exn_eqb (a b : exn) : bool :=
  match a, b with
  | IndexError, IndexError | ValueError, ValueError
  | AttributeError, AttributeError | KeyError, KeyError
  | TypeError, TypeError | OverflowError, OverflowError => true
  | _, _ => false
  end.

#[global] Instance result_ret : MRet result := fun A a => Ok a.

#[global] Instance result_bind : MBind result := fun A B k r =>
  match r with
  | Ok a => k a
  | Raise e => Raise e
  end.

(** [try: body except (e1, e2, ...): handler] *)
Definition try_except {A} (body : result A) (caught : list exn) (handler : A)
  : result A :=
  match body with
  | Ok a => Ok a
  | Raise e => if existsb (exn_eqb e) caught then Ok handler else Raise e
  end.

(** ** Characters *)

Module Char.
Definition ord (c : ascii) : N := N_of_ascii c.

(** [str.isspace] on one character. *)
Definition isspace (c : ascii) : bool :=
  let n := ord c in
  ((9 <=? n) && (n <=? 13) || (28 <=? n) && (n <=? 32)
   || (n =? 133) || (n =? 160))%N.

(** The class [\d]. *)
Definition isdigit (c : ascii) : bool :=
  let n := ord c in ((48 <=? n) && (n <=? 57))%N.

(** The class [.] (no DOTALL flag): anything but a line feed. *)
Definition isdot (c : ascii) : bool := negb (Ascii.eqb c "010").

Definition digit_value (c : ascii) : Z := Z.of_N (ord c) - 48.

(** [str.lower] on one character. *)
Definition lower (c : ascii) : ascii :=
  let n := ord c in
  if ((65 <=? n) && (n <=? 90) || (192 <=? n) && (n <=? 214)
      || (216 <=? n) && (n <=? 222))%N
  then ascii_of_N (n + 32) else c.
End Char.

(** ** Strings *)

Module Str.
Definition nl : string := String "010" "".

(** [s.lower()] *)
Fixpoint lower (s : string) : string :=
  match s with
  | "" => ""
  | String c r => String (Char.lower c) (lower r)
  end.

(** [s[len(p):]] when [s.startswith(p)]. *)
Fixpoint removeprefix (p s : string) : option string :=
  match p, s with
  | "", _ => Some s
  | String a p', String b s' =>
      if Ascii.eqb a b then removeprefix p' s' else None
  | String _ _, "" => None
  end.

(** [sub in s] *)
Fixpoint contains (sub s : string) : bool :=
  match removeprefix sub s with
  | Some _ => true
  | None => match s with
            | "" => false
            | String _ r => contains sub r
            end
  end.

(** [s.partition(sep)], [None] when [sep] does not occur: the text before
    the leftmost occurrence and the text after it. *)
Fixpoint partition (sep s : string) : option (string * string) :=
  match removeprefix sep s with
  | Some after => Some ("", after)
  | None =>
      match s with
      | "" => None
      | String c r =>
          match partition sep r with
          | Some (before, after) => Some (String c before, after)
          | None => None
          end
      end
  end.

Fixpoint split_upto (n : nat) (sep s : string) : list string :=
  match n with
  | O => [s]
  | S n' =>
      match partition sep s with
      | Some (before, after) => before :: split_upto n' sep after
      | None => [s]
      end
  end.

(** [s.split(sep)] for a non-empty [sep] (Python raises [ValueError] on
    an empty one; every call in the program passes a literal). There are
    at most [len(s)] occurrences to cut at. *)
Definition split (sep s : string) : list string :=
  split_upto (String.length s) sep s.

Fixpoint lstrip_by (p : ascii -> bool) (s : string) : string :=
  match s with
  | "" => ""
  | String c r => if p c then lstrip_by p r else s
  end.

Fixpoint rstrip_by (p : ascii -> bool) (s : string) : string :=
  match s with
  | "" => ""
  | String c r =>
      match rstrip_by p r with
      | "" => if p c then "" else String c ""
      | r' => String c r'
      end
  end.

Definition strip_by (p : ascii -> bool) (s : string) : string :=
  rstrip_by p (lstrip_by p s).

Fixpoint mem (c : ascii) (chars : string) : bool :=
  match chars with
  | "" => false
  | String d r => Ascii.eqb c d || mem c r
  end.

(** [s.strip(chars)] *)
Definition strip_chars (chars s : string) : string :=
  strip_by (fun c => mem c chars) s.

(** [s.strip()] *)
Definition strip (s : string) : string := strip_by Char.isspace s.

(** [sep.join(l)] *)
Fixpoint join (sep : string) (l : list string) : string :=
  match l with
  | [] => ""
  | [x] => x
  | x :: r => x +:+ sep +:+ join sep r
  end.

(** The longest prefix made of characters of a class. *)
Fixpoint take_while (p : ascii -> bool) (s : string) : string :=
  match s with
  | "" => ""
  | String c r => if p c then String c (take_while p r) else ""
  end.

(** Truth value of a string. *)
Definition truthy (s : string) : bool :=
  match s with "" => false | _ => true end.
End Str.

(** [l[i]] *)
Definition index {A} (l : list A) (i : nat) : result A :=
  match l !! i with
  | Some x => Ok x
  | None => Raise IndexError
  end.

(** ** Regular expressions of the program

    Both patterns of the program have the shape [LITERAL(C+)] for a
    character class [C]: [\*\*Name:\*\* (.+)] and [\*\*Age:\*\* (\d+)]. *)

Record pattern := Pattern { literal : string; group_class : ascii -> bool }.

(** An anchored match at the start of [text]: group 1, the greedy run. *)
Definition re_match (pat : pattern) (text : string) : option string :=
  match Str.removeprefix (literal pat) text with
  | Some rest =>
      match Str.take_while (group_class pat) rest with
      | "" => None
      | g => Some g
      end
  | None => None
  end.

(** [re.search(pat, text)]: group 1 of the leftmost match. *)
Fixpoint re_search (pat : pattern) (text : string) : option string :=
  match re_match pat text with
  | Some g => Some g
  | None =>
      match text with
      | "" => None
      | String _ r => re_search pat r
      end
  end.

(** ** [int(s)]

    The conversion skips the whitespace around the literal, takes an
    optional sign, and then digits, with single underscores between
    digits. The whitespace it skips is the ASCII one and the other spaces
    of the block; the separators 28 to 31, which [str.strip] removes, are
    not part of it. A literal of more than [int_max_str_digits] digits is
    refused. *)

Definition int_space (c : ascii) : bool :=
  let n := Char.ord c in
  ((9 <=? n) && (n <=? 13) || (n =? 32) || (n =? 133) || (n =? 160))%N.

(** [sys.get_int_max_str_digits()], at its default. *)
Definition int_max_str_digits : nat := 4300.

(** The number of digits of a literal. *)
Fixpoint count_digits (s : string) : nat :=
  match s with
  | "" => 0
  | String c r => if Char.isdigit c then S (count_digits r) else count_digits r
  end.

Fixpoint int_digits (acc : Z) (after_digit : bool) (s : string) : option Z :=
  match s with
  | "" => if after_digit then Some acc else None
  | String c r =>
      if Char.isdigit c then int_digits (10 * acc + Char.digit_value c) true r
      else if Ascii.eqb c "_" && after_digit then int_digits acc false r
      else None
  end.

Definition int_literal (t : string) : option Z :=
  match t with
  | "" => None
  | String c r =>
      if Ascii.eqb c "-" then Z.opp <$> int_digits 0 false r
      else if Ascii.eqb c "+" then int_digits 0 false r
      else int_digits 0 false t
  end.

Definition int (s : string) : result Z :=
  let t := Str.strip_by int_space s in
  if (int_max_str_digits <? count_digits t)%nat then Raise ValueError
  else match int_literal t with
       | Some z => Ok z
       | None => Raise ValueError
       end.

(** ** [extract_student_info] *)

Record student_info := StudentInfo {
  name : string;
  age : Z;
  marks : Z;
  department : string;
  hobbies : string;
  sport : string
}.

Definition extract_field (pat : pattern) (text default : string) : string :=
  match re_search pat text with
  | Some g => Str.strip g
  | None => default
  end.

Definition name_pattern := Pattern "**Name:** " Char.isdot.
Definition age_pattern := Pattern "**Age:** " Char.isdigit.
Definition marks_pattern := Pattern "**Marks:** " Char.isdigit.
Definition department_pattern := Pattern "**Department:** " Char.isdot.

(** [item.strip("* ").strip()] *)
Definition bullet_item (item : string) : string :=
  Str.strip (Str.strip_chars "* " item).

(** [[item.strip("* ").strip() for item in section.split("\n") if item.strip()]] *)
Definition section_items (section : string) : list string :=
  bullet_item <$> filter (fun item => Str.truthy (Str.strip item) = true)
                         (Str.split Str.nl section).

Definition hobbies_items (content_text : string) : result (list string) :=
  try_except
    (after ← index (Str.split "**Hobbies:**" content_text) 1;
     hobbies_section ← index (Str.split "**Sport:**" after) 0;
     mret (section_items hobbies_section))
    [IndexError; AttributeError] [].

Definition sports_items (content_text : string) : result (list string) :=
  try_except
    (sports_section ← index (Str.split "**Sport:**" content_text) 1;
     mret (section_items sports_section))
    [IndexError; AttributeError] [].

Definition extract_student_info (content_text : string) : result student_info :=
  let name_ := extract_field name_pattern content_text "Unknown" in
  age_ ← int (extract_field age_pattern content_text "0");
  marks_ ← int (extract_field marks_pattern content_text "0");
  let department_ := extract_field department_pattern content_text "Unknown" in
  hobbies_ ← hobbies_items content_text;
  sports_ ← sports_items content_text;
  mret (StudentInfo name_ age_ marks_ department_
        (Str.join ", " hobbies_) (Str.join ", " sports_)).

Definition sample_profile : string :=
  "**Name:** Asha Rao" +:+ Str.nl +:+
  "**Age:** 21" +:+ Str.nl +:+
  "**Marks:** 88" +:+ Str.nl +:+
  "**Department:** Computer Science" +:+ Str.nl +:+
  "**Hobbies:**" +:+ Str.nl +:+
  "* reading" +:+ Str.nl +:+
  "* swimming *" +:+ Str.nl +:+
  "**Sport:**" +:+ Str.nl +:+
  "* cricket".


(** ** [numpy.float64] *)

Module F64.
Import SpecFloat.

Definition prec : Z := 53.
Definition emax : Z := 1024.

(** The cast of an integer, rounded to nearest even. *)
Definition of_int (z : Z) : spec_float := binary_normalize prec emax z 0 false.

Definition zero : spec_float := S754_zero false.
Definition add : spec_float -> spec_float -> spec_float := SFadd prec emax.
Definition div : spec_float -> spec_float -> spec_float := SFdiv prec emax.

(** [x > y] *)
Definition gt (x y : spec_float) : bool := SFltb y x.

(** [num / den] rounded to the nearest integer, ties to even. *)
Definition round_half_even (num den : N) : N :=
  let q := (num / den)%N in
  match (2 * (num mod den) ?= den)%N with
  | Lt => q
  | Gt => (q + 1)%N
  | Eq => if N.even q then q else (q + 1)%N
  end.

(** [m * 2^e] in hundredths, rounded on its exact value. *)
Definition hundredths (m : positive) (e : Z) : N :=
  match e with
  | Z0 => 100 * Npos m
  | Zpos p => 100 * Npos m * 2 ^ Npos p
  | Zneg p => round_half_even (100 * Npos m) (2 ^ Npos p)
  end%N.

Definition fixed2 (r : N) : string :=
  pretty (r / 100)%N +:+ "." +:+
  pretty (r / 10 mod 10)%N +:+ pretty (r mod 10)%N.

Definition sign (s : bool) : string := if s then "-" else "".

(** [f"{x:.2f}"] *)
Definition format_2f (x : spec_float) : string :=
  match x with
  | S754_nan => "nan"
  | S754_infinity s => sign s +:+ "inf"
  | S754_zero s => sign s +:+ "0.00"
  | S754_finite s m e => sign s +:+ fixed2 (hundredths m e)
  end.
End F64.

(** [np.mean(l)] on a list of ints: the elements are cast to float64, added
    in float64 and the sum is divided by the count; the mean of no element
    is nan. (numpy adds in index order below eight elements and blockwise
    above; the orders agree as long as the partial sums are exact.) *)
Definition np_mean (l : list Z) : SpecFloat.spec_float :=
  F64.div (foldl F64.add F64.zero (F64.of_int <$> l))
          (F64.of_int (Z.of_nat (length l))).

(** ** Rows and the store *)

(** A row of the [student] table as [fetchall] returns it: the tuple
    [(ID, NAME, AGE, MARKS, DEPARTMENT, HOBBY, SPORT)], [record[i]] being
    its i-th component. *)
Record row := Row {
  ID : Z;
  NAME : string;
  AGE : Z;
  MARKS : Z;
  DEPARTMENT : string;
  HOBBY : string;
  SPORT : string
}.

(** Objects that are mutated in place, or handed in by the caller, live in
    a store; a variable holds the location of its object. Lists that are
    built by a comprehension and only read afterwards are values. *)
Definition loc := positive.

Inductive obj :=
| ORows (rows : list row)              (* a list of row tuples *)
| OInts (l : list Z)                   (* a list of ints *)
| ODict (items : list (Z * Z)).        (* a dict from int to int, in
                                          insertion order *)

Abbreviation heap := (gmap loc obj).

Definition M (A : Type) : Type := heap -> result A * heap.

#[global] Instance M_ret : MRet M := fun A a h => (Ok a, h).

#[global] Instance M_bind : MBind M := fun A B k m h =>
  match m h with
  | (Ok a, h') => k a h'
  | (Raise e, h') => (Raise e, h')
  end.

Definition raise {A} (e : exn) : M A := fun h => (Raise e, h).

Definition lift {A} (r : result A) : M A := fun h => (r, h).

(** A new object, at a location that is not in use. *)
Definition alloc (o : obj) : M loc := fun h =>
  let l := fresh (dom h) in (Ok l, <[l := o]> h).

(** The elements of a list of rows, as a loop or a comprehension over it
    reads them. *)
Definition load_rows (l : loc) : M (list row) := fun h =>
  match h !! l with
  | Some (ORows rows) => (Ok rows, h)
  | _ => (Raise TypeError, h)
  end.

Definition load_ints (l : loc) : M (list Z) := fun h =>
  match h !! l with
  | Some (OInts xs) => (Ok xs, h)
  | _ => (Raise TypeError, h)
  end.

(** [l.append(x)] *)
Definition list_append (l : loc) (x : Z) : M unit := fun h =>
  match h !! l with
  | Some (OInts xs) => (Ok (), <[l := OInts (xs ++ [x])]> h)
  | _ => (Raise AttributeError, h)
  end.

Fixpoint items_get (items : list (Z * Z)) (k default : Z) : Z :=
  match items with
  | [] => default
  | (k', v) :: rest => if decide (k' = k) then v else items_get rest k default
  end.

(** An existing key keeps its place, a new key goes last. *)
Fixpoint items_set (items : list (Z * Z)) (k v : Z) : list (Z * Z) :=
  match items with
  | [] => [(k, v)]
  | (k', v') :: rest =>
      if decide (k' = k) then (k, v) :: rest else (k', v') :: items_set rest k v
  end.

(** [d.get(k, default)] *)
Definition dict_get (d : loc) (k default : Z) : M Z := fun h =>
  match h !! d with
  | Some (ODict items) => (Ok (items_get items k default), h)
  | _ => (Raise AttributeError, h)
  end.

(** [d[k] = v] *)
Definition dict_set (d : loc) (k v : Z) : M unit := fun h =>
  match h !! d with
  | Some (ODict items) => (Ok (), <[d := ODict (items_set items k v)]> h)
  | _ => (Raise TypeError, h)
  end.

(** [for x in l: body(x)] *)
Fixpoint for_each {A} (l : list A) (body : A -> M unit) : M unit :=
  match l with
  | [] => mret ()
  | x :: rest => body x ;; for_each rest body
  end.

(** [[f(x) for x in l]] where [f] has effects. *)
Fixpoint for_list {A B} (l : list A) (f : A -> M B) : M (list B) :=
  match l with
  | [] => mret []
  | x :: rest => y ← f x; ys ← for_list rest f; mret (y :: ys)
  end.

(** [d[k]] for a dict from strings, given by its items. *)
Fixpoint getitem {V} (items : list (string * V)) (k : string) : result V :=
  match items with
  | [] => Raise KeyError
  | (k', v) :: rest => if decide (k' = k) then Ok v else getitem rest k
  end.

(** ** Sets

    The order in which a set is iterated is not specified: any enumeration
    without repetition of the elements it was built from. *)
Class SetIteration := {
  set_iter : forall A `{EqDecision A}, list A -> list A;
  set_iter_NoDup : forall A `{EqDecision A} (l : list A), NoDup (set_iter A l);
  set_iter_elem : forall A `{EqDecision A} (l : list A) (x : A),
      x ∈ set_iter A l <-> x ∈ l
}.
Arguments set_iter {_ _ _} l.

(** One such order: that of the last occurrences. *)
#[global] Instance remove_dups_order : SetIteration := {|
  set_iter A _ l := remove_dups l;
  set_iter_NoDup A _ l := NoDup_remove_dups l;
  set_iter_elem A _ l x := elem_of_remove_dups l x
|}.

(** ** [max] *)

(** The scan of [max]: the current best is replaced by an item whose key is
    greater. *)
Fixpoint max_scan {A K} (gt : K -> K -> bool) (key : A -> K)
    (best : A) (l : list A) : A :=
  match l with
  | [] => best
  | x :: rest => max_scan gt key (if gt (key x) (key best) then x else best) rest
  end.

(** [max(l, key=key)] *)
Definition max_by {A K} (gt : K -> K -> bool) (key : A -> K) (l : list A)
  : result A :=
  match l with
  | [] => Raise ValueError
  | x :: rest => Ok (max_scan gt key x rest)
  end.

(** The same with a key that reads the store; the key of an item is
    computed once. *)
Fixpoint max_scan_M {A K} (gt : K -> K -> bool) (key : A -> M K)
    (best : A) (kbest : K) (l : list A) : M A :=
  match l with
  | [] => mret best
  | x :: rest =>
      kx ← key x;
      if gt kx kbest then max_scan_M gt key x kx rest
      else max_scan_M gt key best kbest rest
  end.

Definition max_by_M {A K} (gt : K -> K -> bool) (key : A -> M K) (l : list A)
  : M A :=
  match l with
  | [] => raise ValueError
  | x :: rest => kx ← key x; max_scan_M gt key x kx rest
  end.

(** ** [answer_question] *)

Inductive answer :=
| AStr (s : string)
| AStrs (l : list string)
| AInts (l : list Z)
| ADict (d : loc).

(** [l.count(x)] *)
Definition count {A} `{EqDecision A} (l : list A) (x : A) : Z :=
  Z.of_nat (length (filter (fun y => y = x) l)).

(** [[t.strip() for s in l for t in s.split(",")]] *)
Definition tokens (l : list string) : list string :=
  s ← l; Str.strip <$> Str.split "," s.

Section Answerer.
Context `{SetIteration}.

Definition average_age (records : loc) : M answer :=
  rows ← load_rows records;
  let ages := AGE <$> rows in
  let average_age := np_mean ages in
  mret (AStr ("The average age of the students is "
              +:+ F64.format_2f average_age +:+ " years.")).

Definition highest_marks (records : loc) : M answer :=
  rows ← load_rows records;
  let marks := MARKS <$> rows in
  highest_marks ← lift (max_by Z.gtb id marks);
  mret (AStr ("The highest marks achieved is " +:+ pretty highest_marks +:+ ".")).

Definition computer_science_students (records : loc) : M answer :=
  rows ← load_rows records;
  let computer_science_students :=
    length (filter (fun record =>
                      Str.contains "computer science"
                                   (Str.lower (DEPARTMENT record)) = true)
                   rows) in
  mret (AStr ("There are " +:+ pretty computer_science_students
              +:+ " students in the Computer Science department.")).

Definition common_hobbies (records : loc) : M answer :=
  rows ← load_rows records;
  let hobbies := HOBBY <$> rows in
  let all_hobbies := tokens hobbies in
  common_hobbies ← lift (max_by Z.gtb (count all_hobbies) (set_iter all_hobbies));
  mret (AStr ("The most common hobby among students is "
              +:+ common_hobbies +:+ ".")).

Definition distribution_of_marks (records : loc) : M answer :=
  rows ← load_rows records;
  let marks := MARKS <$> rows in
  mark_distribution ← alloc (ODict []);
  for_each marks (fun mark =>
    n ← dict_get mark_distribution mark 0;
    dict_set mark_distribution mark (n + 1));;
  mret (ADict mark_distribution).

Definition highest_average_marks (records : loc) : M answer :=
  rows ← load_rows records;
  let departments := set_iter (DEPARTMENT <$> rows) in
  marks_by_department ← for_list departments (fun department =>
    l ← alloc (OInts []); mret (department, l));
  rows ← load_rows records;
  for_each rows (fun record =>
    l ← lift (getitem marks_by_department (DEPARTMENT record));
    list_append l (MARKS record));;
  highest_average_marks_department ←
    max_by_M F64.gt
      (fun x => l ← lift (getitem marks_by_department x);
                ms ← load_ints l;
                mret (np_mean ms))
      (marks_by_department.*1);
  mret (AStr ("The department with the highest average marks is "
              +:+ highest_average_marks_department +:+ ".")).

Definition all_student_names (records : loc) : M answer :=
  rows ← load_rows records;
  mret (AStrs (set_iter (NAME <$> rows))).

Definition all_student_ages (records : loc) : M answer :=
  rows ← load_rows records;
  mret (AInts (set_iter (AGE <$> rows))).

Definition all_student_hobbies (records : loc) : M answer :=
  rows ← load_rows records;
  let hobbies := tokens (HOBBY <$> rows) in
  mret (AStrs (set_iter hobbies)).

Definition all_student_departments (records : loc) : M answer :=
  rows ← load_rows records;
  mret (AStrs (set_iter (DEPARTMENT <$> rows))).

Definition all_student_sports (records : loc) : M answer :=
  rows ← load_rows records;
  let sports := tokens (SPORT <$> rows) in
  mret (AStrs (set_iter sports)).

Definition not_understood : M answer :=
  mret (AStr "Sorry, I couldn't understand the question.").

Definition answer_question (question : string) (records : loc) : M answer :=
  if Str.contains "average age" (Str.lower question) then
    average_age records
  else if Str.contains "highest marks" (Str.lower question) then
    highest_marks records
  else if Str.contains "students in the computer science department"
                       (Str.lower question) then
    computer_science_students records
  else if Str.contains "common hobbies" (Str.lower question) then
    common_hobbies records
  else if Str.contains "distribution of marks" (Str.lower question) then
    distribution_of_marks records
  else if Str.contains "highest average marks" (Str.lower question) then
    highest_average_marks records
  else if Str.contains "all student names" (Str.lower question) then
    all_student_names records
  else if Str.contains "all student ages" (Str.lower question) then
    all_student_ages records
  else if Str.contains "all student hobbies" (Str.lower question) then
    all_student_hobbies records
  else if Str.contains "all student departments" (Str.lower question) then
    all_student_departments records
  else if Str.contains "all student sports" (Str.lower question) then
    all_student_sports records
  else
    not_understood.

(** The dispatch policy as the specification words it: an ordered list
    of triggers, the first one found in the lowercased question wins. *)
Definition triggers : list (string * (loc -> M answer)) :=
  [ ("average age", average_age);
    ("highest marks", highest_marks);
    ("students in the computer science department", computer_science_students);
    ("common hobbies", common_hobbies);
    ("distribution of marks", distribution_of_marks);
    ("highest average marks", highest_average_marks);
    ("all student names", all_student_names);
    ("all student ages", all_student_ages);
    ("all student hobbies", all_student_hobbies);
    ("all student departments", all_student_departments);
    ("all student sports", all_student_sports) ].

Definition first_trigger (question : string)
  : option (string * (loc -> M answer)) :=
  List.find (fun t => Str.contains t.1 (Str.lower question)) triggers.

Definition answer_by_table (question : string) (records : loc) : M answer :=
  match first_trigger question with
  | Some (_, compute) => compute records
  | None => not_understood
  end.
End Answerer.

(** The trigger substrings, in the order they are tried. *)
Definition trigger_names : list string :=
  [ "average age"; "highest marks";
    "students in the computer science department"; "common hobbies";
    "distribution of marks"; "highest average marks"; "all student names";
    "all student ages"; "all student hobbies"; "all student departments";
    "all student sports" ].

(** The triggers tried before [trigger]. *)
Fixpoint before (trigger : string) (l : list string) : list string :=
  match l with
  | [] => []
  | t :: rest => if decide (t = trigger) then [] else t :: before trigger rest
  end.

(** A small table. *)
Definition sample_rows : list row :=
  [ Row 1 "Asha" 20 70 "Computer Science" "reading, chess" "cricket";
    Row 2 "Bilal" 22 70 "Physics" "" "football";
    Row 3 "Chen" 24 85 "Computer Science" "chess" "cricket, chess" ].

Definition sample_heap : heap := {[ 1%positive := ORows sample_rows ]}.

(** A profile with a hobbies section and no sport section. *)
Definition profile_without_sport : string :=
  "**Name:** Asha Rao" +:+ Str.nl +:+
  "**Hobbies:**" +:+ Str.nl +:+
  "* chess".

(** A profile whose age is spelled out and whose marks are missing. *)
Definition profile_without_numbers : string :=
  "**Name:** Asha Rao" +:+ Str.nl +:+
  "**Age:** twenty" +:+ Str.nl +:+
  "**Department:** Physics".

(** A bullet line indented with a tab, and a profile using it. *)
Definition tabbed_bullet : string := String "009" "* swimming".

Definition tabbed_profile : string :=
  "**Hobbies:**" +:+ Str.nl +:+
  tabbed_bullet +:+ Str.nl +:+
  "**Sport:**" +:+ Str.nl +:+
  "* cricket".

(** [c * n] *)
Fixpoint run_of (c : ascii) (n : nat) : string :=
  match n with
  | O => ""
  | S n' => String c (run_of c n')
  end.

(** A profile whose age has 4301 digits, and one without an age whose
    marks have 4301 digits. *)
Definition long_age_profile : string := "**Age:** " +:+ run_of "9" 4301.

Definition long_marks_profile : string := "**Marks:** " +:+ run_of "9" 4301.

(** ** Vocabulary of the statements *)

(** [sub] occurs somewhere in [s]. *)
Definition occurs (sub s : string) : Prop :=
  exists pre suf, s = pre +:+ sub +:+ suf.

(** Every character of [s] is in the class [p]. *)
Fixpoint all_chars (p : ascii -> bool) (s : string) : bool :=
  match s with
  | "" => true
  | String c r => p c && all_chars p r
  end.

(** No run of digits in [text] is longer than [bound]. *)
Definition digit_runs_within (bound : nat) (text : string) : Prop :=
  forall pre run suf, text = pre +:+ run +:+ suf ->
    all_chars Char.isdigit run = true -> String.length run <= bound.

(** No occurrence of [label] in [text] is followed by a character of the
    class [cls]: the field is absent, or what follows the label cannot
    start a value. *)
Definition no_value_after (label : string) (cls : ascii -> bool) (text : string)
  : Prop :=
  forall pre c suf, text = pre +:+ label +:+ String c suf -> cls c = false.

(** [s] neither begins nor ends with a character of the class [p]. *)
Definition clean_ends (p : ascii -> bool) (s : string) : Prop :=
  (forall c r, s = String c r -> p c = false) /\
  (forall r c, s = r +:+ String c "" -> p c = false).

(** The class "[*] or whitespace". *)
Definition star_or_space (c : ascii) : bool := Ascii.eqb c "*" || Char.isspace c.

(** A character that is whitespace is the space itself. *)
Definition space_if_blank (c : ascii) : bool :=
  negb (Char.isspace c) || Ascii.eqb c " ".

(** [sub] occurs in the lowercased question. *)
Definition mentions (question sub : string) : Prop :=
  occurs sub (Str.lower question).

(** The question mentions [trigger] and no trigger tried before it. *)
Definition asks (question trigger : string) : Prop :=
  mentions question trigger
  /\ Forall (fun t => ~ mentions question t) (before trigger trigger_names).

(** Started in a store that extends [base], the computation ends in a store
    that still extends [base], and its result satisfies [post]. *)
Definition preserves {A} (base : heap) (m : M A) (post : A -> Prop) : Prop :=
  forall h, base ⊆ h -> base ⊆ (m h).2 /\ forall a, (m h).1 = Ok a -> post a.

(** The items the counting loop leaves when started on [items]. *)
Definition tally (marks : list Z) (items : list (Z * Z)) : list (Z * Z) :=
  foldl (fun items mark => items_set items mark (items_get items mark 0 + 1))
        items marks.





(** ** Further vocabulary: the answers *)

(** The distinct elements of a list, each at its first occurrence. *)
Fixpoint first_seen (l : list Z) : list Z :=
  match l with
  | [] => []
  | x :: rest => x :: filter (fun y => y <> x) (first_seen rest)
  end.

(** The sum of the values of a dict. *)
Definition sum_values (items : list (Z * Z)) : Z :=
  foldr (fun item acc => (item.2 + acc)%Z) 0%Z items.

(** ** Further vocabulary: texts *)

(** [lit] and [t] differ at a position that both have. *)
Fixpoint clash (lit t : string) : bool :=
  match lit, t with
  | String a l, String b t' => negb (Ascii.eqb a b) || clash l t'
  | _, _ => false
  end.

(** [lit] clashes with every non-empty suffix of [s]: whatever follows
    [s], no occurrence of [lit] starts inside it. *)
Fixpoint all_clash (lit s : string) : bool :=
  match s with
  | "" => true
  | String _ r => clash lit s && all_clash lit r
  end.

(** A comma-free string without whitespace at its ends. *)
Definition token_like (s : string) : Prop :=
  all_chars (fun c => negb (Ascii.eqb "," c)) s = true
  /\ clean_ends Char.isspace s.

(** A character other than [*] and the line feed. *)
Definition plain_char (c : ascii) : bool :=
  negb (Ascii.eqb "*" c) && negb (Ascii.eqb "010" c).

(** A value as the template carries it: not empty, on one line, without
    [*], without whitespace at its ends. *)
Definition plain (s : string) : Prop :=
  s <> "" /\ all_chars plain_char s = true /\ clean_ends Char.isspace s.

(** A non-empty run of digits. *)
Definition digits (s : string) : Prop :=
  s <> "" /\ all_chars Char.isdigit s = true.

(** A bullet list, one item per line. *)
Definition bullets (items : list string) : string :=
  foldr (fun item rest => "* " +:+ item +:+ Str.nl +:+ rest) "" items.

(** The profile the prompt asks for, written on the template. *)
Definition profile_text (n a m d : string) (hs ss : list string) : string :=
  "**Name:** " +:+ n +:+ Str.nl +:+
  "**Age:** " +:+ a +:+ Str.nl +:+
  "**Marks:** " +:+ m +:+ Str.nl +:+
  "**Department:** " +:+ d +:+ Str.nl +:+
  "**Hobbies:**" +:+ Str.nl +:+ bullets hs +:+
  "**Sport:**" +:+ Str.nl +:+ bullets ss.

(** [s] is [before], then its first occurrence of [sep], then [after]. *)
Definition first_split (sep s before after : string) : Prop :=
  s = before +:+ sep +:+ after
  /\ forall b a, s = b +:+ sep +:+ a -> String.length before <= String.length b.

(** A profile with two sport markers, and one whose hobby item names the
    sport marker. *)
Definition profile_two_sports : string :=
  "**Sport:**" +:+ Str.nl +:+ "* cricket" +:+ Str.nl +:+
  "**Sport:**" +:+ Str.nl +:+ "* chess".

Definition profile_marker_in_item : string :=
  "**Hobbies:**" +:+ Str.nl +:+ "* reading **Sport:** pages" +:+ Str.nl +:+
  "**Sport:**" +:+ Str.nl +:+ "* chess".

(** The template up to the sport marker, followed by [tail]. *)
Definition profile_with (n a m d : string) (hs : list string) (tail : string)
  : string :=
  "**Name:** " +:+ n +:+ Str.nl +:+
  "**Age:** " +:+ a +:+ Str.nl +:+
  "**Marks:** " +:+ m +:+ Str.nl +:+
  "**Department:** " +:+ d +:+ Str.nl +:+
  "**Hobbies:**" +:+ Str.nl +:+ bullets hs +:+
  "**Sport:**" +:+ tail.

(** A bullet list that follows a line and ends without a line feed. *)
Definition open_bullets (items : list string) : string :=
  foldr (fun item rest => Str.nl +:+ "* " +:+ item +:+ rest) "" items.

(** ** [generate_student_profile]

    The reply of the generation service as the function reads it: a list
    of candidates, the content of a candidate with or without the
    attribute [parts], a part with its text. The call to the service is
    outside the model: the function is given the reply. *)
Record part := Part { text : string }.

Record candidate := Candidate { content_parts : option (list part) }.

Record response := Response { candidates : list candidate }.

(** What [logging] records. *)
Inductive log_record :=
| LogWarning (message : string)
| LogError (e : exn).

(** [bool(l) and len(l) > 0] *)
Definition present {A} (l : list A) : bool :=
  match l with
  | [] => false
  | _ :: _ => (0 <? length l)%nat
  end.

(** The function from the reply on. The record or [None] comes with what
    was logged; [except Exception] takes every exception of the body. *)
Definition generate_student_profile (response : response)
  : option student_info * list log_record :=
  let body : result (option student_info * list log_record) :=
    let candidates := candidates response in
    if present candidates then
      candidate ← index candidates 0;
      let parts := match content_parts candidate with
                   | Some parts => parts
                   | None => []
                   end in
      if present parts then
        part ← index parts 0;
        let student_text := Str.strip (text part) in
        student_info ← extract_student_info student_text;
        mret (Some student_info, [])
      else
        mret (None, [])
    else
      mret (None, [LogWarning "No valid candidates found in the response."])
  in
  match body with
  | Ok outcome => outcome
  | Raise e => (None, [LogError e])
  end.

(** ** [insert_generated_records] and [fetch_records]

    The [student] table is the list of its rows in the order they were
    inserted. The id of a new row is the choice of the store
    ([ID INTEGER PRIMARY KEY], never given by the program): a parameter.
    The connection and the creation of the table when it is missing are
    not modelled. *)
Class RowIds := new_id : list row -> Z.

(** The rule of SQLite: one more than the largest id in use, 1 in an
    empty table. *)
Definition largest_id_plus_one : RowIds := fun table =>
  match ID <$> table with
  | [] => 1%Z
  | id :: ids => (1 + foldr Z.max id ids)%Z
  end.

(** A Python [int] that [sqlite3] can bind: a signed 64-bit integer. *)
Definition sqlite_integer (z : Z) : bool :=
  ((- 2 ^ 63 <=? z) && (z <? 2 ^ 63))%Z.

(** [INSERT INTO student (NAME, AGE, MARKS, DEPARTMENT, HOBBY, SPORT)
    VALUES (?, ?, ?, ?, ?, ?)] with the six fields of the record. Binding
    an age or marks outside the 64-bit range raises [OverflowError]. *)
Definition insert_student `{RowIds} (table : list row) (student : student_info)
  : result (list row) :=
  if sqlite_integer (age student) && sqlite_integer (marks student) then
    Ok (table ++ [Row (new_id table) (name student) (age student) (marks student)
                    (department student) (hobbies student) (sport student)])
  else Raise OverflowError.

(** The loop over [range(num_records)], given the reply of each call to
    the service, and the commit behind it. It returns the warnings shown
    and the table as committed; when an insertion raises, the loop ends
    there and the commit is not reached. *)
Fixpoint insert_generated_records `{RowIds} (table : list row)
    (replies : list response) : result (list row) * list string :=
  match replies with
  | [] => (Ok table, [])
  | reply :: rest =>
      match (generate_student_profile reply).1 with
      | None =>
          let '(outcome, warnings) := insert_generated_records table rest in
          (outcome,
           "Could not generate a student profile. Skipping record." :: warnings)
      | Some student =>
          match insert_student table student with
          | Ok table' => insert_generated_records table' rest
          | Raise e => (Raise e, [])
          end
      end
  end.

(** A record that the table can take. *)
Definition storable (student : student_info) : bool :=
  sqlite_integer (age student) && sqlite_integer (marks student).

(** [SELECT * FROM student] *)
Definition fetch_records (table : list row) : list row := table.

(** The six data columns of a row, as a record. *)
Definition row_student (record : row) : student_info :=
  StudentInfo (NAME record) (AGE record) (MARKS record) (DEPARTMENT record)
    (HOBBY record) (SPORT record).

(** A reply whose first candidate starts with a part of the given text. *)
Definition reply_with (s : string) : response :=
  Response [Candidate (Some [Part s])].

(* ================================================================== *)
(** * Properties *)

(** ** Strings *)

Section StrFacts.
Implicit Types (s t p sub sep : string) (c : ascii).

Lemma app_nil_l_s s : "" +:+ s = s.
Proof. reflexivity. Qed.

Lemma app_cons_s c s t : String c s +:+ t = String c (s +:+ t).
Proof. reflexivity. Qed.

Lemma app_nil_r_s s : s +:+ "" = s.
Proof.
  induction s as [|c s IH]; [done | by rewrite app_cons_s, IH].
Qed.

Lemma app_assoc_s s t p : (s +:+ t) +:+ p = s +:+ t +:+ p.
Proof.
  induction s as [|c s IH]; [done | by rewrite !app_cons_s, IH].
Qed.

Lemma app_eq_nil_s s t : s +:+ t = "" -> s = "" /\ t = "".
Proof. destruct s; [done | discriminate]. Qed.

Lemma length_app_s s t :
  String.length (s +:+ t) = String.length s + String.length t.
Proof.
  induction s as [|c s IH]; [done |]. rewrite app_cons_s. simpl. by rewrite IH.
Qed.

Lemma removeprefix_Some p s r : Str.removeprefix p s = Some r <-> s = p +:+ r.
Proof.
  revert s. induction p as [|a p IH]; intros s; simpl.
  - rewrite app_nil_l_s. split; congruence.
  - rewrite app_cons_s. destruct s as [|b s]; [split; discriminate |].
    destruct (Ascii.eqb_spec a b) as [->|Hne].
    + rewrite IH. split; congruence.
    + split; [discriminate | congruence].
Qed.

Lemma removeprefix_app p r : Str.removeprefix p (p +:+ r) = Some r.
Proof. by apply removeprefix_Some. Qed.

Lemma occurs_cons sub c s : occurs sub s -> occurs sub (String c s).
Proof. intros (pre & suf & ->). by exists (String c pre), suf. Qed.

Lemma occurs_refl s : occurs s s.
Proof. exists "", "". by rewrite app_nil_r_s. Qed.

Lemma occurs_trans s t p : occurs s t -> occurs t p -> occurs s p.
Proof.
  intros (a & b & ->) (a' & b' & ->).
  exists (a' +:+ a), (b +:+ b'). by rewrite !app_assoc_s.
Qed.

Lemma contains_occurs sub s : Str.contains sub s = true <-> occurs sub s.
Proof.
  induction s as [|c s IH]; simpl.
  - destruct (Str.removeprefix sub "") as [r|] eqn:E.
    + apply removeprefix_Some in E. split; [|done]. intros _.
      exists "", r. done.
    + split; [discriminate |]. intros (pre & suf & H).
      symmetry in H. apply app_eq_nil_s in H as [-> H].
      apply app_eq_nil_s in H as [-> ->]. discriminate.
  - destruct (Str.removeprefix sub (String c s)) as [r|] eqn:E.
    + apply removeprefix_Some in E. split; [|done]. intros _.
      exists "", r. done.
    + rewrite IH. split; [apply occurs_cons |].
      intros (pre & suf & H). destruct pre as [|c' pre].
      * rewrite H, app_nil_l_s, removeprefix_app in E. discriminate.
      * rewrite app_cons_s in H. injection H as _ ->. by exists pre, suf.
Qed.

Lemma contains_false sub s : Str.contains sub s = false <-> ~ occurs sub s.
Proof.
  rewrite <- contains_occurs. by destruct (Str.contains sub s).
Qed.

Lemma partition_None sep s :
  Str.partition sep s = None <-> Str.contains sep s = false.
Proof.
  induction s as [|c s IH]; simpl.
  - destruct (Str.removeprefix sep ""); split; done.
  - destruct (Str.removeprefix sep (String c s)); [split; done |].
    rewrite <- IH. destruct (Str.partition sep s) as [[??]|]; split; done.
Qed.

Lemma partition_Some sep s before after :
  Str.partition sep s = Some (before, after) -> s = before +:+ sep +:+ after.
Proof.
  revert before. induction s as [|c s IH]; intros before; simpl.
  - destruct (Str.removeprefix sep "") eqn:E; [|discriminate].
    intros [= <- <-]. by apply removeprefix_Some in E.
  - destruct (Str.removeprefix sep (String c s)) eqn:E.
    + intros [= <- <-]. by apply removeprefix_Some in E.
    + destruct (Str.partition sep s) as [[b a]|]; [|discriminate].
      intros [= <- <-]. rewrite app_cons_s. f_equal. by apply IH.
Qed.

Lemma split_upto_pieces n sep s x :
  x ∈ Str.split_upto n sep s -> occurs x s.
Proof.
  revert s. induction n as [|n IH]; intros s; simpl.
  - intros ->%list_elem_of_singleton. apply occurs_refl.
  - destruct (Str.partition sep s) as [[b a]|] eqn:E.
    + apply partition_Some in E as ->.
      intros [->|H]%elem_of_cons.
      * by exists "", (sep +:+ a).
      * apply IH in H as (pre & suf & ->).
        exists (b +:+ sep +:+ pre), suf. by rewrite !app_assoc_s.
    + intros ->%list_elem_of_singleton. apply occurs_refl.
Qed.

Lemma split_pieces sep s x : x ∈ Str.split sep s -> occurs x s.
Proof. apply split_upto_pieces. Qed.

(** Without the separator there is nothing to cut. *)
Lemma split_absent sep s : Str.contains sep s = false -> Str.split sep s = [s].
Proof.
  intros H%partition_None. unfold Str.split.
  destruct (String.length s); simpl; [done | by rewrite H].
Qed.

Lemma split_second_absent sep s :
  Str.contains sep s = false -> Str.split sep s !! 1 = None.
Proof. intros H. by rewrite split_absent. Qed.

(** A split is never empty, so [split(...)[0]] never raises. *)
Lemma split_upto_head n sep s :
  exists x rest, Str.split_upto n sep s = x :: rest.
Proof.
  destruct n; simpl; [by eexists _, _ |].
  destruct (Str.partition sep s) as [[??]|]; by eexists _, _.
Qed.
End StrFacts.

(** ** Searching a field *)

Section SearchFacts.
Implicit Types (s t g text : string) (c : ascii) (pat : pattern).

Lemma take_while_all p s : all_chars p (Str.take_while p s) = true.
Proof.
  induction s as [|c s IH]; simpl; [done |].
  destruct (p c) eqn:E; simpl; [by rewrite E | done].
Qed.

Lemma take_while_prefix p s : exists suf, s = Str.take_while p s +:+ suf.
Proof.
  induction s as [|c s [suf IH]]; simpl; [by exists "" |].
  destruct (p c); [|by exists (String c s)].
  exists suf. rewrite app_cons_s. by rewrite IH at 1.
Qed.

Lemma re_match_Some pat text g :
  re_match pat text = Some g -> g <> "" /\ all_chars (group_class pat) g = true.
Proof.
  unfold re_match. destruct (Str.removeprefix _ _) as [rest|]; [|done].
  pose proof (take_while_all (group_class pat) rest) as H.
  destruct (Str.take_while _ rest); [done |]. by intros [= <-].
Qed.

Lemma re_search_Some pat text g :
  re_search pat text = Some g -> g <> "" /\ all_chars (group_class pat) g = true.
Proof.
  induction text as [|c text IH]; simpl.
  - destruct (re_match pat "") eqn:E; [|done].
    intros [= <-]. by apply re_match_Some in E.
  - destruct (re_match pat (String c text)) eqn:E; [|done].
    intros [= <-]. by apply re_match_Some in E.
Qed.

Lemma re_match_None pat text :
  re_match pat text = None <->
  forall c suf, text = literal pat +:+ String c suf -> group_class pat c = false.
Proof.
  unfold re_match. destruct (Str.removeprefix _ _) as [rest|] eqn:E.
  - apply removeprefix_Some in E as ->. destruct rest as [|c rest]; simpl.
    + split; [|done]. intros _ c suf H%(inj (String.append _)). done.
    + destruct (group_class pat c) eqn:Ec.
      * split; [done |]. intros H. specialize (H c rest eq_refl). congruence.
      * split; [|done]. intros _ c' suf H%(inj (String.append _)). congruence.
  - split; [|done]. intros _ c suf ->. by rewrite removeprefix_app in E.
Qed.

(** The search fails exactly when no occurrence of the literal is followed
    by a character of the class. *)
Lemma re_search_None pat text :
  re_search pat text = None <->
  no_value_after (literal pat) (group_class pat) text.
Proof.
  unfold no_value_after. induction text as [|a text IH]; simpl.
  - destruct (re_match pat "") eqn:E.
    + split; [done |]. intros H. exfalso.
      assert (re_match pat "" = None) as E'; [|congruence].
      apply re_match_None. intros c suf Hs. by apply (H "" c suf).
    + split; [|done]. intros _ pre c suf H.
      symmetry in H. apply app_eq_nil_s in H as [_ H].
      by apply app_eq_nil_s in H as [_ H].
  - destruct (re_match pat (String a text)) eqn:E.
    + split; [done |]. intros H. exfalso.
      assert (re_match pat (String a text) = None) as E'; [|congruence].
      apply re_match_None. intros c suf Hs. by apply (H "" c suf).
    + rewrite IH. split.
      * intros H pre c suf Hs. destruct pre as [|b pre].
        -- rewrite app_nil_l_s in Hs.
           by apply (proj1 (re_match_None pat _) E c suf).
        -- rewrite app_cons_s in Hs. injection Hs as _ ->. by eapply H.
      * intros H pre c suf ->. by apply (H (String a pre) c suf).
Qed.

Lemma no_value_after_absent label cls text :
  ~ occurs label text -> no_value_after label cls text.
Proof.
  intros Hno pre c suf ->. destruct Hno.
  exists pre, (String c suf). done.
Qed.
End SearchFacts.

(** ** Converting the digits *)

Section IntFacts.
Implicit Types (s g : string) (c : ascii).

Lemma isdigit_plain c :
  Char.isdigit c = true ->
  Char.isspace c = false /\ Ascii.eqb c "-" = false /\ Ascii.eqb c "+" = false.
Proof.
  destruct c as [[] [] [] [] [] [] [] []]; vm_compute; intros H;
    first [discriminate H | done].
Qed.

Lemma digit_value_nonneg c : Char.isdigit c = true -> (0 <= Char.digit_value c)%Z.
Proof.
  unfold Char.isdigit, Char.digit_value.
  intros [H _]%andb_prop. apply N.leb_le in H. lia.
Qed.

Lemma lstrip_by_head p c s : p c = false -> Str.lstrip_by p (String c s) = String c s.
Proof. intros H. simpl. by rewrite H. Qed.

Lemma rstrip_by_none p s :
  all_chars (fun c => negb (p c)) s = true -> Str.rstrip_by p s = s.
Proof.
  induction s as [|c s IH]; simpl; [done |].
  intros [Hc Hs]%andb_prop. rewrite (IH Hs).
  apply negb_true_iff in Hc. rewrite Hc. by destruct s.
Qed.

Lemma strip_by_none p s :
  all_chars (fun c => negb (p c)) s = true -> Str.strip_by p s = s.
Proof.
  intros H. unfold Str.strip_by. destruct s as [|c s]; [done |].
  pose proof H as [Hc _]%andb_prop. apply negb_true_iff in Hc.
  rewrite lstrip_by_head by done. by apply rstrip_by_none.
Qed.

Lemma all_chars_impl (p q : ascii -> bool) s :
  (forall c, p c = true -> q c = true) ->
  all_chars p s = true -> all_chars q s = true.
Proof.
  intros Hpq. induction s as [|c s IH]; simpl; [done |].
  intros [Hc Hs]%andb_prop. by rewrite (Hpq c Hc), (IH Hs).
Qed.

Lemma int_digits_digits s acc b :
  all_chars Char.isdigit s = true -> s <> "" \/ b = true -> (0 <= acc)%Z ->
  exists z, int_digits acc b s = Some z /\ (0 <= z)%Z.
Proof.
  revert acc b. induction s as [|c s IH]; intros acc b; simpl.
  - intros _ [?| ->] Hacc; [done | by exists acc].
  - intros [Hc Hs]%andb_prop _ Hacc. rewrite Hc.
    apply IH; [done | by right |].
    pose proof (digit_value_nonneg c Hc). lia.
Qed.

Lemma isdigit_int_space c : Char.isdigit c = true -> int_space c = false.
Proof.
  destruct c as [[] [] [] [] [] [] [] []]; vm_compute; intros H;
    first [discriminate H | done].
Qed.

Lemma count_digits_run s :
  all_chars Char.isdigit s = true -> count_digits s = String.length s.
Proof.
  induction s as [|c s IH]; simpl; [done |].
  intros [-> Hs]%andb_prop. by rewrite (IH Hs).
Qed.

Lemma int_literal_run g :
  g <> "" -> all_chars Char.isdigit g = true ->
  exists z, int_literal g = Some z /\ (0 <= z)%Z.
Proof.
  intros Hne Hall. destruct g as [|c r]; [done |].
  pose proof Hall as [Hc _]%andb_prop. unfold int_literal.
  destruct (isdigit_plain c Hc) as (_ & -> & ->).
  destruct (int_digits_digits (String c r) 0 false Hall) as (z & -> & Hz);
    [by left | lia |]. by exists z.
Qed.

Lemma int_space_run g :
  all_chars Char.isdigit g = true -> Str.strip_by int_space g = g.
Proof.
  intros Hall. apply strip_by_none. eapply all_chars_impl; [|exact Hall].
  intros c ->%isdigit_int_space. done.
Qed.

(** [int] on a non-empty run of digits: the number it denotes, or
    [ValueError] when the run is longer than the limit. *)
Lemma int_run g :
  g <> "" -> all_chars Char.isdigit g = true ->
  (String.length g <= int_max_str_digits ->
   exists z, int g = Ok z /\ (0 <= z)%Z)
  /\ (int_max_str_digits < String.length g -> int g = Raise ValueError).
Proof.
  intros Hne Hall. unfold int.
  rewrite (int_space_run g Hall), (count_digits_run g Hall).
  destruct (int_literal_run g Hne Hall) as (z & -> & Hz).
  destruct (Nat.ltb_spec int_max_str_digits (String.length g)) as [Hlt|Hle].
  - split; [lia | done].
  - split; [by exists z | lia].
Qed.

Lemma int_digits_ok g :
  g <> "" -> all_chars Char.isdigit g = true ->
  String.length g <= int_max_str_digits ->
  exists z, int g = Ok z /\ (0 <= z)%Z.
Proof. intros Hne Hall. by apply int_run. Qed.

(** [ValueError] is all that [int] raises. *)
Lemma int_raises s e : int s = Raise e -> e = ValueError.
Proof.
  unfold int. destruct (_ <? _)%nat; [congruence |].
  destruct (int_literal _); congruence.
Qed.

(** What an integer field hands to [int] is a non-empty run of digits; it
    is "0" when the search fails. *)
Lemma extract_field_digits label text :
  extract_field (Pattern label Char.isdigit) text "0" <> ""
  /\ all_chars Char.isdigit (extract_field (Pattern label Char.isdigit) text "0")
     = true
  /\ (re_search (Pattern label Char.isdigit) text = None ->
      extract_field (Pattern label Char.isdigit) text "0" = "0").
Proof.
  unfold extract_field.
  destruct (re_search _ text) as [g|] eqn:E; [|done].
  apply re_search_Some in E as [Hne Hall]. simpl in Hall.
  assert (Str.strip g = g) as ->; [|done].
  apply strip_by_none. eapply all_chars_impl; [|exact Hall].
  intros c [-> _]%isdigit_plain. done.
Qed.

(** The two integer fields: the conversion gives a number that is not
    negative, 0 after a failed search, unless the digits are more than
    the limit, when it raises [ValueError]. *)
Lemma int_field_ok label text :
  (String.length (extract_field (Pattern label Char.isdigit) text "0")
   <= int_max_str_digits ->
   exists z, int (extract_field (Pattern label Char.isdigit) text "0") = Ok z
             /\ (0 <= z)%Z
             /\ (re_search (Pattern label Char.isdigit) text = None -> z = 0%Z))
  /\ (int_max_str_digits
      < String.length (extract_field (Pattern label Char.isdigit) text "0") ->
      int (extract_field (Pattern label Char.isdigit) text "0")
      = Raise ValueError).
Proof.
  destruct (extract_field_digits label text) as (Hne & Hall & Hnone).
  destruct (int_run _ Hne Hall) as [Hok Hlong].
  split; [|exact Hlong].
  intros Hlen. destruct (Hok Hlen) as (z & E & Hz).
  exists z. split_and!; [done | done |].
  intros Hs. rewrite (Hnone Hs) in E. vm_compute in E. congruence.
Qed.
End IntFacts.

(** ** Stripping *)

Section StripFacts.
Implicit Types (s r : string) (c : ascii) (p q : ascii -> bool).

Lemma lstrip_by_first p s c r : Str.lstrip_by p s = String c r -> p c = false.
Proof.
  induction s as [|a s IH]; simpl; [done |].
  destruct (p a) eqn:E; [done |]. by intros [= <- _].
Qed.

Lemma rstrip_by_cons p c s :
  p c = false -> exists r, Str.rstrip_by p (String c s) = String c r.
Proof.
  intros H. simpl. rewrite H. destruct (Str.rstrip_by p s); by eexists.
Qed.

Lemma rstrip_by_last p s r c :
  Str.rstrip_by p s = r +:+ String c "" -> p c = false.
Proof.
  revert r. induction s as [|a s IH]; intros r; simpl.
  - by destruct r.
  - destruct (Str.rstrip_by p s) as [|b t] eqn:E.
    + destruct (p a) eqn:Ea; [by destruct r |].
      destruct r as [|a' r]; [by intros [= <-] |].
      rewrite app_cons_s. intros [= _ H]. by destruct r.
    + destruct r as [|a' r]; [done |].
      rewrite app_cons_s. intros [= _ H]. by apply (IH r).
Qed.

Lemma strip_by_clean p s : clean_ends p (Str.strip_by p s).
Proof.
  unfold Str.strip_by. split.
  - intros c r. destruct (Str.lstrip_by p s) as [|a t] eqn:E; [done |].
    pose proof (lstrip_by_first _ _ _ _ E) as Ha.
    destruct (rstrip_by_cons p a t Ha) as [t' ->]. by intros [= <- _].
  - intros r c. apply rstrip_by_last.
Qed.

Lemma rstrip_by_fixed p s :
  (forall r c, s = r +:+ String c "" -> p c = false) -> Str.rstrip_by p s = s.
Proof.
  induction s as [|a s IH]; intros H; simpl; [done |].
  rewrite IH.
  - destruct s; [|done]. by rewrite (H "" a).
  - intros r c ->. by apply (H (String a r) c).
Qed.

Lemma strip_by_fixed p s : clean_ends p s -> Str.strip_by p s = s.
Proof.
  intros [Hl Hr]. unfold Str.strip_by. destruct s as [|c s]; [done |].
  rewrite lstrip_by_head by (by eapply Hl). by apply rstrip_by_fixed.
Qed.

Lemma clean_ends_weaken p q s :
  (forall c, p c = true -> q c = true) -> clean_ends q s -> clean_ends p s.
Proof.
  intros Hpq [Hl Hr]. split.
  - intros c r Hs. specialize (Hl c r Hs).
    destruct (p c) eqn:E; [|done]. apply Hpq in E. congruence.
  - intros r c Hs. specialize (Hr r c Hs).
    destruct (p c) eqn:E; [|done]. apply Hpq in E. congruence.
Qed.

Lemma lstrip_by_ext p q s :
  all_chars (fun c => Bool.eqb (p c) (q c)) s = true ->
  Str.lstrip_by p s = Str.lstrip_by q s.
Proof.
  induction s as [|a s IH]; simpl; [done |].
  intros [Ha Hs]%andb_prop. apply Bool.eqb_prop in Ha as <-.
  destruct (p a); [by apply IH | done].
Qed.

Lemma rstrip_by_ext p q s :
  all_chars (fun c => Bool.eqb (p c) (q c)) s = true ->
  Str.rstrip_by p s = Str.rstrip_by q s.
Proof.
  induction s as [|a s IH]; simpl; [done |].
  intros [Ha Hs]%andb_prop. apply Bool.eqb_prop in Ha as <-.
  by rewrite (IH Hs).
Qed.

Lemma lstrip_by_all p (f : ascii -> bool) s :
  all_chars f s = true -> all_chars f (Str.lstrip_by p s) = true.
Proof.
  induction s as [|a s IH]; simpl; [done |].
  intros H. pose proof H as [Ha Hs]%andb_prop.
  destruct (p a); [by apply IH | done].
Qed.

Lemma strip_by_ext p q s :
  all_chars (fun c => Bool.eqb (p c) (q c)) s = true ->
  Str.strip_by p s = Str.strip_by q s.
Proof.
  intros H. unfold Str.strip_by. rewrite <- (lstrip_by_ext p q s H).
  apply rstrip_by_ext. by apply lstrip_by_all.
Qed.

Lemma star_space_agree c :
  space_if_blank c = true ->
  Bool.eqb (Str.mem c "* ") (star_or_space c) = true.
Proof.
  destruct c as [[] [] [] [] [] [] [] []]; vm_compute; intros H;
    first [discriminate H | done].
Qed.

(** On a line whose only whitespace is the space, the two passes of
    [bullet_item] amount to one strip of [*] and whitespace. *)
Lemma bullet_item_spaces s :
  all_chars space_if_blank s = true ->
  bullet_item s = Str.strip_by star_or_space s.
Proof.
  intros H. unfold bullet_item, Str.strip, Str.strip_chars.
  rewrite (strip_by_ext (fun c => Str.mem c "* ") star_or_space s).
  2:{ eapply all_chars_impl; [|exact H]. apply star_space_agree. }
  apply strip_by_fixed.
  apply (clean_ends_weaken _ star_or_space); [|apply strip_by_clean].
  intros c Hc. unfold star_or_space. by rewrite Hc, orb_true_r.
Qed.

Lemma section_items_elem section x :
  x ∈ section_items section <->
  exists line, line ∈ Str.split Str.nl section /\ Str.strip line <> ""
               /\ x = bullet_item line.
Proof.
  unfold section_items. rewrite list_elem_of_fmap. split.
  - intros (line & -> & [Ht Hin]%list_elem_of_filter).
    exists line. split_and!; [done | | done].
    intros E. by rewrite E in Ht.
  - intros (line & Hin & Hne & ->). exists line. split; [done |].
    apply list_elem_of_filter. split; [|done].
    by destruct (Str.strip line).
Qed.
End StripFacts.

(** ** The extractor *)

Section ExtractFacts.
Implicit Types (text : string).

Lemma hobbies_items_ok text :
  exists l, hobbies_items text = Ok l
    /\ (Str.contains "**Hobbies:**" text = false -> l = [])
    /\ (forall after, Str.split "**Hobbies:**" text !! 1 = Some after ->
          Str.contains "**Sport:**" after = false -> l = section_items after).
Proof.
  unfold hobbies_items, index.
  destruct (Str.split "**Hobbies:**" text !! 1) as [after|] eqn:E; simpl.
  - destruct (split_upto_head (String.length after) "**Sport:**" after)
      as (x & rest & Hx).
    unfold Str.split at 1. rewrite Hx. simpl. eexists. split; [done |]. split.
    + intros H%split_second_absent. congruence.
    + intros ? [= <-] H%split_absent. unfold Str.split in H.
      rewrite Hx in H. by injection H as -> _.
  - exists []. split_and!; done.
Qed.

Lemma sports_items_ok text :
  exists l, sports_items text = Ok l
    /\ (Str.contains "**Sport:**" text = false -> l = []).
Proof.
  unfold sports_items, index.
  destruct (Str.split "**Sport:**" text !! 1) as [after|] eqn:E; simpl.
  - eexists. split; [done |]. intros H%split_second_absent. congruence.
  - by exists [].
Qed.

(** A match of the search is a piece of the text. *)
Lemma re_search_occurs pat text g : re_search pat text = Some g -> occurs g text.
Proof.
  induction text as [|c text IH]; simpl.
  - unfold re_match. destruct (Str.removeprefix _ "") as [rest|] eqn:E; [|done].
    apply removeprefix_Some in E. symmetry in E.
    apply app_eq_nil_s in E as [_ ->]. done.
  - destruct (re_match pat (String c text)) as [g'|] eqn:E.
    + intros [= ->]. unfold re_match in E.
      destruct (Str.removeprefix _ _) as [rest|] eqn:Er; [|done].
      apply removeprefix_Some in Er as ->.
      destruct (take_while_prefix (group_class pat) rest) as [suf Hs].
      destruct (Str.take_while _ rest) as [|a t]; [done |].
      injection E as <-. exists (literal pat), suf. by rewrite <- Hs.
    + intros H. by apply occurs_cons, IH.
Qed.

Lemma short_text_runs bound text :
  String.length text <= bound -> digit_runs_within bound text.
Proof.
  intros Hlen pre run suf -> _. rewrite !length_app_s in Hlen. lia.
Qed.

Lemma digit_runs_sub bound s text :
  occurs s text -> digit_runs_within bound text -> digit_runs_within bound s.
Proof.
  intros (a & b & ->) Hruns pre run suf -> Hrun.
  apply (Hruns (a +:+ pre) run (suf +:+ b)); [|done].
  by rewrite !app_assoc_s.
Qed.

Lemma lstrip_by_suffix p s : exists pre, s = pre +:+ Str.lstrip_by p s.
Proof.
  induction s as [|c s [pre IH]]; simpl; [by exists "" |].
  destruct (p c); [|by exists ""].
  exists (String c pre). by rewrite app_cons_s, <- IH.
Qed.

Lemma rstrip_by_prefix p s : exists suf, s = Str.rstrip_by p s +:+ suf.
Proof.
  induction s as [|c s [suf IH]]; simpl; [by exists "" |].
  destruct (Str.rstrip_by p s) as [|b r] eqn:E.
  - destruct (p c).
    + by exists (String c s).
    + exists suf. rewrite app_cons_s. by rewrite IH at 1.
  - exists suf. rewrite app_cons_s. by rewrite IH at 1.
Qed.

Lemma strip_by_occurs p s : occurs (Str.strip_by p s) s.
Proof.
  unfold Str.strip_by.
  destruct (lstrip_by_suffix p s) as [pre Hpre].
  destruct (rstrip_by_prefix p (Str.lstrip_by p s)) as [suf Hsuf].
  exists pre, suf. by rewrite <- Hsuf.
Qed.

(** Without a long run of digits in the text, neither integer field is
    longer than the limit. *)
Lemma digit_runs_field label text :
  digit_runs_within int_max_str_digits text ->
  String.length (extract_field (Pattern label Char.isdigit) text "0")
  <= int_max_str_digits.
Proof.
  intros Hruns.
  destruct (extract_field_digits label text) as (_ & Hall & _). revert Hall.
  unfold extract_field.
  destruct (re_search _ text) as [g|] eqn:E.
  - intros Hall. apply re_search_occurs in E.
    destruct (occurs_trans _ _ _ (strip_by_occurs Char.isspace g) E)
      as (pre & suf & Ht).
    by apply (Hruns pre (Str.strip g) suf).
  - intros _. simpl. unfold int_max_str_digits. lia.
Qed.

(** What the extractor returns: each field is what its own step
    computed. *)
Lemma extract_student_info_Ok text info :
  extract_student_info text = Ok info ->
  exists a m hs ss,
    info = StudentInfo (extract_field name_pattern text "Unknown") a m
             (extract_field department_pattern text "Unknown")
             (Str.join ", " hs) (Str.join ", " ss)
    /\ (0 <= a)%Z /\ (re_search age_pattern text = None -> a = 0%Z)
    /\ (0 <= m)%Z /\ (re_search marks_pattern text = None -> m = 0%Z)
    /\ hobbies_items text = Ok hs /\ sports_items text = Ok ss.
Proof.
  unfold extract_student_info.
  destruct (int_field_ok "**Age:** " text) as [Ha Ha'].
  destruct (int_field_ok "**Marks:** " text) as [Hm Hm'].
  destruct (hobbies_items_ok text) as (hs & Eh & _).
  destruct (sports_items_ok text) as (ss & Es & _).
  unfold age_pattern, marks_pattern. rewrite Eh, Es.
  destruct (Nat.le_gt_cases
              (String.length (extract_field (Pattern "**Age:** " Char.isdigit)
                                text "0")) int_max_str_digits) as [Hla|Hla];
    [|rewrite (Ha' Hla); done].
  destruct (Ha Hla) as (a & -> & Ha0 & Han).
  destruct (Nat.le_gt_cases
              (String.length (extract_field (Pattern "**Marks:** " Char.isdigit)
                                text "0")) int_max_str_digits) as [Hlm|Hlm];
    [|rewrite (Hm' Hlm); done].
  destruct (Hm Hlm) as (m & -> & Hm0 & Hmn).
  simpl. intros [= <-]. by exists a, m, hs, ss.
Qed.

(** The extractor returns exactly when neither integer field has more
    digits than the limit; otherwise it raises [ValueError]. *)
Lemma extract_student_info_cases text :
  let a := extract_field age_pattern text "0" in
  let m := extract_field marks_pattern text "0" in
  (String.length a <= int_max_str_digits
   /\ String.length m <= int_max_str_digits
   /\ exists info, extract_student_info text = Ok info)
  \/ ((int_max_str_digits < String.length a
       \/ int_max_str_digits < String.length m)
      /\ extract_student_info text = Raise ValueError).
Proof.
  cbv zeta. unfold extract_student_info.
  destruct (int_field_ok "**Age:** " text) as [Ha Ha'].
  destruct (int_field_ok "**Marks:** " text) as [Hm Hm'].
  destruct (hobbies_items_ok text) as (hs & Eh & _).
  destruct (sports_items_ok text) as (ss & Es & _).
  unfold age_pattern, marks_pattern. rewrite Eh, Es.
  destruct (Nat.le_gt_cases
              (String.length (extract_field (Pattern "**Age:** " Char.isdigit)
                                text "0")) int_max_str_digits) as [Hla|Hla];
    [|right; rewrite (Ha' Hla); split; [by left | done]].
  destruct (Ha Hla) as (a & -> & _).
  destruct (Nat.le_gt_cases
              (String.length (extract_field (Pattern "**Marks:** " Char.isdigit)
                                text "0")) int_max_str_digits) as [Hlm|Hlm];
    [|right; rewrite (Hm' Hlm); split; [by right | done]].
  destruct (Hm Hlm) as (m & -> & _).
  left. split_and!; [done | done |]. simpl. by eexists.
Qed.

Lemma extract_student_info_returns text :
  digit_runs_within int_max_str_digits text ->
  exists info, extract_student_info text = Ok info.
Proof.
  intros Hruns.
  pose proof (digit_runs_field "**Age:** " text Hruns) as Ha.
  pose proof (digit_runs_field "**Marks:** " text Hruns) as Hm.
  destruct (extract_student_info_cases text) as [(_ & _ & H)|[[H|H] _]];
    [done | |]; unfold age_pattern, marks_pattern in H; lia.
Qed.

Lemma extract_student_info_raises text e :
  extract_student_info text = Raise e ->
  e = ValueError /\ ~ digit_runs_within int_max_str_digits text.
Proof.
  intros E.
  destruct (extract_student_info_cases text) as [(_ & _ & info & H)|[_ H]];
    [congruence |].
  split; [congruence |].
  intros [info Hinfo]%extract_student_info_returns. congruence.
Qed.

Lemma label_absent (marker label : string) text :
  Str.contains marker label = true -> ~ occurs marker text -> ~ occurs label text.
Proof.
  intros Hm%contains_occurs Hno Hl. apply Hno. by eapply occurs_trans.
Qed.
End ExtractFacts.

Example extract_sample_profile :
  extract_student_info sample_profile
  = Ok (StudentInfo "Asha Rao" 21 88 "Computer Science"
          "reading, swimming" "cricket").
Proof. vm_compute. reflexivity. Qed.

Example split_commas : Str.split "," ",a,,b," = [""; "a"; ""; "b"; ""].
Proof. vm_compute. reflexivity. Qed.

Example int_forms :
  int " +1_000 " = Ok 1000%Z /\ int "-12" = Ok (-12)%Z
  /\ int "12a" = Raise ValueError /\ int "" = Raise ValueError.
Proof. vm_compute. done. Qed.

Example int_limit :
  int (run_of "9" 4301) = Raise ValueError
  /\ int (run_of "9" 4300) <> Raise ValueError
  /\ int (String "031" "12") = Raise ValueError.
Proof.
  split_and!; [vm_compute; reflexivity | | vm_compute; reflexivity].
  destruct (int_run (run_of "9" 4300)) as [(z & -> & _) _];
    [vm_compute; discriminate | vm_compute; reflexivity
    | vm_compute; reflexivity | discriminate].
Qed.

(** C1 (as amended). The extractor returns a record when no run of digits
    in the text is longer than the limit of [int]. In a record it returns,
    the hobbies field is the empty string when the text has no
    [**Hobbies:**] marker; with that marker and without the [**Sport:**]
    marker, the hobbies are the items of all the text after the first
    [**Hobbies:**] marker (up to the next one). *)
Theorem hobbies_without_markers (text : string) :
  (digit_runs_within int_max_str_digits text ->
   exists info, extract_student_info text = Ok info)
  /\ forall info, extract_student_info text = Ok info ->
       (~ occurs "**Hobbies:**" text -> hobbies info = "")
       /\ (~ occurs "**Sport:**" text ->
           forall after, Str.split "**Hobbies:**" text !! 1 = Some after ->
           hobbies info = Str.join ", " (section_items after)).
Proof.
  split; [apply extract_student_info_returns |].
  intros info E.
  destruct (extract_student_info_Ok text info E)
    as (a & m & hs & ss & -> & _ & _ & _ & _ & Eh & _).
  destruct (hobbies_items_ok text) as (hs' & Eh' & Habs & Hsec).
  assert (hs' = hs) as -> by congruence.
  simpl. split.
  - intros H%contains_false. by rewrite (Habs H).
  - intros Hno after Hafter. f_equal. apply Hsec; [done |].
    apply contains_false. intros Hocc. apply Hno.
    eapply occurs_trans; [exact Hocc |].
    eapply split_pieces, list_elem_of_lookup_2, Hafter.
Qed.

Lemma hobbies_without_markers_witness :
  (exists info, extract_student_info "**Name:** Asha Rao" = Ok info
                /\ hobbies info = "")
  /\ (exists info, extract_student_info profile_without_sport = Ok info
                   /\ hobbies info =
                        Str.join ", " (section_items (Str.nl +:+ "* chess"))).
Proof.
  split.
  - destruct (hobbies_without_markers "**Name:** Asha Rao") as [Hret Hrec].
    destruct Hret as [info E];
      [apply short_text_runs; vm_compute; lia |].
    exists info. split; [exact E |].
    apply (proj1 (Hrec info E)).
    apply contains_false. vm_compute. reflexivity.
  - destruct (hobbies_without_markers profile_without_sport) as [Hret Hrec].
    destruct Hret as [info E];
      [apply short_text_runs; vm_compute; lia |].
    exists info. split; [exact E |].
    apply (proj2 (Hrec info E)).
    + apply contains_false. vm_compute. reflexivity.
    + vm_compute. reflexivity.
Defined.

(** C1 as stated fails: a profile with the [**Hobbies:**] marker and no
    [**Sport:**] marker keeps its hobbies; and a text without the
    [**Hobbies:**] marker whose age has 4301 digits gives no record. *)
Lemma hobbies_kept_without_sport_marker :
  (occurs "**Hobbies:**" profile_without_sport
   /\ ~ occurs "**Sport:**" profile_without_sport
   /\ exists info, extract_student_info profile_without_sport = Ok info
                   /\ hobbies info = "chess" /\ hobbies info <> "")
  /\ (~ occurs "**Hobbies:**" long_age_profile
      /\ extract_student_info long_age_profile = Raise ValueError).
Proof.
  split; split.
  - apply contains_occurs. vm_compute. reflexivity.
  - split; [apply contains_false; vm_compute; reflexivity |].
    eexists. split; [vm_compute; reflexivity |]. done.
  - apply contains_false. vm_compute. reflexivity.
  - vm_compute. reflexivity.
Qed.

(** C3 (as amended). The extractor returns a record exactly when the
    digits it captured for the age and for the marks are at most 4300
    each, so on every text without a longer run of digits; otherwise
    [int] raises [ValueError], which nothing catches. In a record it
    returns, a field that cannot be found takes its default: "Unknown"
    for name and department, 0 for age and marks, the empty string for
    hobbies and sport. *)
Theorem extract_student_info_defaults (text : string) :
  ((exists info, extract_student_info text = Ok info) <->
   String.length (extract_field age_pattern text "0") <= int_max_str_digits
   /\ String.length (extract_field marks_pattern text "0") <= int_max_str_digits)
  /\ (digit_runs_within int_max_str_digits text ->
      exists info, extract_student_info text = Ok info)
  /\ (forall e, extract_student_info text = Raise e -> e = ValueError)
  /\ (forall info, extract_student_info text = Ok info ->
      (no_value_after "**Name:** " Char.isdot text -> name info = "Unknown")
      /\ (no_value_after "**Department:** " Char.isdot text ->
          department info = "Unknown")
      /\ (no_value_after "**Age:** " Char.isdigit text -> age info = 0%Z)
      /\ (no_value_after "**Marks:** " Char.isdigit text -> marks info = 0%Z)
      /\ (~ occurs "**Hobbies:**" text -> hobbies info = "")
      /\ (~ occurs "**Sport:**" text -> sport info = "")).
Proof.
  split_and!.
  - destruct (extract_student_info_cases text)
      as [(Ha & Hm & Hinfo)|[Hlong Hraise]].
    + split; done.
    + split; [intros [info E]; congruence | lia].
  - apply extract_student_info_returns.
  - intros e E. by apply (extract_student_info_raises text).
  - intros info E.
    destruct (extract_student_info_Ok text info E)
      as (a & m & hs & ss & -> & _ & Ha & _ & Hm & Eh & Es).
    destruct (hobbies_items_ok text) as (hs' & Eh' & Hh & _).
    destruct (sports_items_ok text) as (ss' & Es' & Hs).
    assert (hs' = hs) as -> by congruence.
    assert (ss' = ss) as -> by congruence.
    simpl. split_and!.
    + intros H. unfold extract_field.
      by rewrite (proj2 (re_search_None name_pattern text) H).
    + intros H. unfold extract_field.
      by rewrite (proj2 (re_search_None department_pattern text) H).
    + intros H. by apply Ha, re_search_None.
    + intros H. by apply Hm, re_search_None.
    + intros H%contains_false. by rewrite (Hh H).
    + intros H%contains_false. by rewrite (Hs H).
Qed.

Lemma extract_student_info_defaults_witness :
  exists info, extract_student_info "Age: twenty" = Ok info
    /\ name info = "Unknown" /\ department info = "Unknown"
    /\ age info = 0%Z /\ marks info = 0%Z
    /\ hobbies info = "" /\ sport info = "".
Proof.
  destruct (extract_student_info_defaults "Age: twenty")
    as (_ & Hret & _ & Hrec).
  destruct Hret as [info E]; [apply short_text_runs; vm_compute; lia |].
  destruct (Hrec info E) as (Hn & Hd & Ha & Hm & Hh & Hs).
  exists info. split; [exact E |].
  split_and!;
    first [ apply Hn | apply Hd | apply Ha | apply Hm | apply Hh | apply Hs ];
    try apply no_value_after_absent;
    apply contains_false; vm_compute; reflexivity.
Defined.

(** C3 as stated fails: on an age of 4301 digits the extractor raises
    [ValueError] and returns no record. *)
Lemma extract_raises_on_long_age :
  extract_student_info long_age_profile = Raise ValueError
  /\ (forall info, extract_student_info long_age_profile <> Ok info)
  /\ extract_field age_pattern long_age_profile "0" = run_of "9" 4301.
Proof.
  assert (extract_student_info long_age_profile = Raise ValueError) as E
    by (vm_compute; reflexivity).
  split_and!; [exact E | | vm_compute; reflexivity].
  intros info. rewrite E. discriminate.
Qed.

(** C4 (as amended). The extractor returns a record when no run of digits
    in the text is longer than the limit of [int]. In a record it returns,
    when no [**Age:** ] label is followed by a digit (the line is absent,
    or its value does not begin with a digit) the age is 0, and the same
    for marks; in particular a text without [**Age:**] has age 0. *)
Theorem age_marks_default (text : string) :
  (digit_runs_within int_max_str_digits text ->
   exists info, extract_student_info text = Ok info)
  /\ forall info, extract_student_info text = Ok info ->
       (no_value_after "**Age:** " Char.isdigit text -> age info = 0%Z)
       /\ (~ occurs "**Age:**" text -> age info = 0%Z)
       /\ (no_value_after "**Marks:** " Char.isdigit text -> marks info = 0%Z)
       /\ (~ occurs "**Marks:**" text -> marks info = 0%Z).
Proof.
  split; [apply extract_student_info_returns |].
  intros info E.
  destruct (extract_student_info_Ok text info E)
    as (a & m & hs & ss & -> & _ & Ha & _ & Hm & _ & _).
  simpl.
  assert (forall label, no_value_after label Char.isdigit text ->
            re_search (Pattern label Char.isdigit) text = None) as Hnone.
  { intros label Hno. by apply (proj2 (re_search_None (Pattern label _) text)). }
  split_and!.
  - intros H. by apply Ha, Hnone.
  - intros H. apply Ha, Hnone, no_value_after_absent.
    by apply (label_absent "**Age:**").
  - intros H. by apply Hm, Hnone.
  - intros H. apply Hm, Hnone, no_value_after_absent.
    by apply (label_absent "**Marks:**").
Qed.

Lemma age_marks_default_witness :
  exists info, extract_student_info profile_without_numbers = Ok info
    /\ age info = 0%Z /\ marks info = 0%Z.
Proof.
  destruct (age_marks_default profile_without_numbers) as [Hret Hrec].
  destruct Hret as [info E]; [apply short_text_runs; vm_compute; lia |].
  destruct (Hrec info E) as (Ha & _ & _ & Hm).
  exists info. split; [exact E |]. split.
  - apply Ha. apply (proj1 (re_search_None age_pattern _)).
    vm_compute. reflexivity.
  - apply Hm. apply contains_false. vm_compute. reflexivity.
Defined.

(** C4 as stated fails: a text without the [**Age:**] line whose marks
    have 4301 digits gives no record with age 0, it raises [ValueError];
    and an age of 4301 digits, which [int] refuses, is not replaced by 0. *)
Lemma long_digits_not_defaulted :
  ~ occurs "**Age:**" long_marks_profile
  /\ extract_student_info long_marks_profile = Raise ValueError
  /\ (forall info, extract_student_info long_marks_profile <> Ok info)
  /\ int (extract_field age_pattern long_age_profile "0") = Raise ValueError
  /\ (forall info, extract_student_info long_age_profile <> Ok info).
Proof.
  assert (extract_student_info long_marks_profile = Raise ValueError) as Em
    by (vm_compute; reflexivity).
  assert (extract_student_info long_age_profile = Raise ValueError) as Ea
    by (vm_compute; reflexivity).
  split_and!.
  - apply contains_false. vm_compute. reflexivity.
  - exact Em.
  - intros info. rewrite Em. discriminate.
  - vm_compute. reflexivity.
  - intros info. rewrite Ea. discriminate.
Qed.

(** C8 (as amended). An item is its line stripped of [*] and spaces at both
    ends and then of whitespace at both ends. It never begins or ends with
    whitespace; when the only whitespace of the line is the space, this is
    the line stripped of [*] and whitespace at both ends; and
    ["* swimming *"] gives ["swimming"]. *)
Theorem bullet_item_strips (line : string) :
  (forall section, line ∈ Str.split Str.nl section -> Str.strip line <> "" ->
     bullet_item line ∈ section_items section)
  /\ clean_ends Char.isspace (bullet_item line)
  /\ (all_chars space_if_blank line = true ->
      bullet_item line = Str.strip_by star_or_space line
      /\ clean_ends star_or_space (bullet_item line))
  /\ bullet_item "* swimming *" = "swimming".
Proof.
  split_and!.
  - intros section Hin Hne. apply section_items_elem. by exists line.
  - apply strip_by_clean.
  - intros H. rewrite (bullet_item_spaces line H).
    split; [done | apply strip_by_clean].
  - vm_compute. reflexivity.
Qed.

Lemma bullet_item_strips_witness :
  bullet_item "* swimming *" ∈ section_items (Str.nl +:+ "* swimming *")
  /\ bullet_item "* swimming *" = Str.strip_by star_or_space "* swimming *".
Proof.
  pose proof (bullet_item_strips "* swimming *") as (Hin & _ & Hsp & _).
  split.
  - apply Hin; [vm_compute | vm_compute; discriminate].
    apply list_elem_of_In. simpl. tauto.
  - apply Hsp. vm_compute. reflexivity.
Defined.

(** C8 as stated fails: behind a tab the bullet survives, so the item is
    not the line stripped of [*] and whitespace at both ends. *)
Lemma bullet_kept_behind_tab :
  bullet_item tabbed_bullet = "* swimming"
  /\ Str.strip_by star_or_space tabbed_bullet = "swimming"
  /\ bullet_item tabbed_bullet <> Str.strip_by star_or_space tabbed_bullet
  /\ ~ clean_ends star_or_space (bullet_item tabbed_bullet)
  /\ exists info, extract_student_info tabbed_profile = Ok info
                  /\ hobbies info = "* swimming".
Proof.
  assert (bullet_item tabbed_bullet = "* swimming") as E
    by (vm_compute; reflexivity).
  split_and!; [exact E | vm_compute; reflexivity | | |].
  - rewrite E. vm_compute. discriminate.
  - rewrite E. intros [Hfirst _].
    specialize (Hfirst "*"%char " swimming" eq_refl). discriminate Hfirst.
  - eexists. split; [vm_compute; reflexivity |]. done.
Qed.


(** ** Dispatch *)

Section DispatchFacts.
Context `{SetIteration}.
Implicit Types (question t : string) (records : loc) (h : heap).

Lemma answer_question_table question records :
  answer_question question records = answer_by_table question records.
Proof.
  unfold answer_question, answer_by_table, first_trigger, triggers.
  simpl.
  repeat (destruct (Str.contains _ (Str.lower question)); [reflexivity |]).
  reflexivity.
Qed.

Lemma triggers_names : triggers.*1 = trigger_names.
Proof. reflexivity. Qed.

Lemma asks_dispatch question t compute records :
  (t, compute) ∈ triggers -> asks question t ->
  answer_question question records = compute records.
Proof.
  intros Hin [Hm Hbefore]. apply contains_occurs in Hm.
  unfold triggers in Hin.
  repeat (apply elem_of_cons in Hin as [[= -> ->]|Hin];
          [ simpl in Hbefore;
            repeat match goal with
              | Hf : Forall _ (_ :: _) |- _ =>
                  apply Forall_cons in Hf as [?%contains_false Hf]
              end;
            unfold answer_question;
            repeat match goal with
              | Hc : Str.contains _ _ = _ |- _ => rewrite Hc; clear Hc
              end;
            reflexivity
          | ]).
  by apply elem_of_nil in Hin.
Qed.

Lemma no_trigger_dispatch question records :
  Forall (fun t => ~ mentions question t) trigger_names ->
  answer_question question records = not_understood.
Proof.
  intros Hf. unfold trigger_names in Hf.
  repeat match goal with
    | Hf : Forall _ (_ :: _) |- _ =>
        apply Forall_cons in Hf as [?%contains_false Hf]
    end.
  unfold answer_question.
  repeat match goal with
    | Hc : Str.contains _ _ = _ |- _ => rewrite Hc; clear Hc
    end.
  reflexivity.
Qed.

Lemma bind_eq {A B} (m : M A) (k : A -> M B) h :
  (m ≫= k) h = match m h with
               | (Ok a, h') => k a h'
               | (Raise e, h') => (Raise e, h')
               end.
Proof. reflexivity. Qed.



Lemma load_rows_ok records h rows :
  h !! records = Some (ORows rows) -> load_rows records h = (Ok rows, h).
Proof. intros E. unfold load_rows. by rewrite E. Qed.
End DispatchFacts.

(** C2. The lowercased question is tried against the triggers in their
    fixed order and the first one found decides the computation; when none
    is found the answer is the fixed sentence, whatever the records. *)
Theorem dispatch_first_trigger `{SetIteration} (question : string) (records : loc) :
  answer_question question records = answer_by_table question records
  /\ (forall t compute, (t, compute) ∈ triggers -> asks question t ->
        answer_question question records = compute records)
  /\ (Forall (fun t => ~ mentions question t) trigger_names ->
      forall h, answer_question question records h
                = (Ok (AStr "Sorry, I couldn't understand the question."), h)).
Proof.
  split_and!.
  - apply answer_question_table.
  - intros t compute. apply asks_dispatch.
  - intros Hno h. by rewrite no_trigger_dispatch.
Qed.

Lemma dispatch_first_trigger_witness :
  answer_question "Average age and HIGHEST MARKS, please" 1%positive
  = average_age 1%positive
  /\ answer_question "xyz unrelated question" 1%positive sample_heap
     = (Ok (AStr "Sorry, I couldn't understand the question."), sample_heap).
Proof.
  split.
  - destruct (dispatch_first_trigger "Average age and HIGHEST MARKS, please"
                1%positive) as (_ & Hfirst & _).
    apply (Hfirst "average age"); [unfold triggers; set_solver |].
    split; [apply contains_occurs; vm_compute; reflexivity | constructor].
  - destruct (dispatch_first_trigger "xyz unrelated question" 1%positive)
      as (_ & _ & Hnone).
    apply Hnone.
    repeat constructor; apply contains_false; vm_compute; reflexivity.
Defined.

(** ** [max] returns a maximal item *)

Section MaxFacts.
Context {A K : Type} (gt : K -> K -> bool) (key : A -> K).
Hypothesis gt_irrefl : forall a, gt a a = false.
Hypothesis gt_trans : forall a b c, gt a b = true -> gt b c = true -> gt a c = true.

Lemma max_scan_elem best l : max_scan gt key best l ∈ best :: l.
Proof.
  revert best. induction l as [|x l IH]; intros best; simpl.
  - apply list_elem_of_singleton. done.
  - specialize (IH (if gt (key x) (key best) then x else best)).
    apply elem_of_cons in IH as [->|IH].
    + destruct (gt (key x) (key best)); set_solver.
    + set_solver.
Qed.

Lemma max_scan_dominates best l :
  (forall k, gt k (key best) = false ->
             gt k (key (max_scan gt key best l)) = false)
  /\ (forall x, x ∈ l -> gt (key x) (key (max_scan gt key best l)) = false).
Proof.
  revert best. induction l as [|x l IH]; intros best; simpl.
  - split; [done |]. intros x Hx. by apply elem_of_nil in Hx.
  - destruct (IH (if gt (key x) (key best) then x else best)) as [Hd Hl].
    destruct (gt (key x) (key best)) eqn:E.
    + split.
      * intros k Hk. apply Hd.
        destruct (gt k (key x)) eqn:E'; [|done].
        by rewrite (gt_trans _ _ _ E' E) in Hk.
      * intros y [->|Hy]%elem_of_cons; [|by apply Hl].
        apply Hd, gt_irrefl.
    + split; [done |].
      intros y [->|Hy]%elem_of_cons; [|by apply Hl]. by apply Hd.
Qed.

Lemma max_by_maximal l :
  l <> [] ->
  exists r, max_by gt key l = Ok r /\ r ∈ l
            /\ forall x, x ∈ l -> gt (key x) (key r) = false.
Proof.
  destruct l as [|best l]; [done |]. intros _. simpl.
  eexists. split; [done |]. split; [apply max_scan_elem |].
  destruct (max_scan_dominates best l) as [Hd Hl].
  intros x [->|Hx]%elem_of_cons; [|by apply Hl]. apply Hd, gt_irrefl.
Qed.
End MaxFacts.

Section MaxStoreFacts.
Context {A K : Type} (gt : K -> K -> bool) (key : A -> M K) (f : A -> K).


End MaxStoreFacts.

(** ** The order of float64 *)

Section FloatOrder.
Import SpecFloat.

Lemma SFltb_irrefl x : SFltb x x = false.
Proof.
  unfold SFltb. destruct x as [s|s| |s m e]; simpl; try done.
  - by destruct s.
  - destruct s; rewrite Z.compare_refl; fold (Pos.compare m m);
      by rewrite Pos.compare_refl.
Qed.

Lemma SFltb_trans x y z : SFltb x y = true -> SFltb y z = true -> SFltb x z = true.
Proof.
  unfold SFltb.
  destruct x as [sx|sx| |sx mx ex], y as [sy|sy| |sy my ey],
           z as [sz|sz| |sz mz ez]; simpl;
    try done; try (by destruct sx); try (by destruct sy);
    try (by destruct sz); try (by destruct sx, sy);
    try (by destruct sy, sz); try (by destruct sx, sz);
    try (by destruct sx, sy, sz).
  fold (Pos.compare mx my) (Pos.compare my mz) (Pos.compare mx mz).
  destruct sx, sy, sz; try done;
    destruct (Z.compare_spec ex ey), (Z.compare_spec ey ez),
             (Z.compare_spec ex ez); try done; try lia;
    destruct (Pos.compare_spec mx my), (Pos.compare_spec my mz),
             (Pos.compare_spec mx mz); simpl; try done; lia.
Qed.

Lemma gt_irrefl x : F64.gt x x = false.
Proof. apply SFltb_irrefl. Qed.

Lemma gt_trans x y z :
  F64.gt x y = true -> F64.gt y z = true -> F64.gt x z = true.
Proof. unfold F64.gt. intros H1 H2. by apply (SFltb_trans z y x). Qed.
End FloatOrder.

(** ** What a computation leaves alone *)

Section FrameFacts.
Context (base : heap).
Implicit Types (h : heap) (l d : loc).

Lemma preserves_weaken {A} (m : M A) (post post' : A -> Prop) :
  (forall a, post a -> post' a) -> preserves base m post -> preserves base m post'.
Proof. intros Hpp Hm h Hh. destruct (Hm h Hh). naive_solver. Qed.

Lemma preserves_ret {A} (a : A) (post : A -> Prop) :
  post a -> preserves base (mret a) post.
Proof. intros Ha h Hh. split; [done |]. by intros ? [= <-]. Qed.

Lemma preserves_lift {A} (r : result A) (post : A -> Prop) :
  (forall a, r = Ok a -> post a) -> preserves base (lift r) post.
Proof. intros Hr h Hh. split; [done |]. simpl. done. Qed.

Lemma preserves_raise {A} e (post : A -> Prop) : preserves base (raise e) post.
Proof. intros h Hh. split; done. Qed.

Lemma preserves_bind {A B} (m : M A) (k : A -> M B) post_m post :
  preserves base m post_m ->
  (forall a, post_m a -> preserves base (k a) post) ->
  preserves base (m ≫= k) post.
Proof.
  intros Hm Hk h Hh. destruct (Hm h Hh) as [Hsub Hpost].
  unfold mbind, M_bind. destruct (m h) as [[a|e] h']; simpl in *.
  - by apply Hk; [apply Hpost |].
  - done.
Qed.

Lemma preserves_load_rows l : preserves base (load_rows l) (fun _ => True).
Proof.
  intros h Hh. unfold load_rows. by destruct (h !! l) as [[]|].
Qed.

Lemma preserves_load_ints l : preserves base (load_ints l) (fun _ => True).
Proof.
  intros h Hh. unfold load_ints. by destruct (h !! l) as [[]|].
Qed.

(** A new object is outside [base]. *)
Lemma preserves_alloc o : preserves base (alloc o) (fun l => base !! l = None).
Proof.
  intros h Hh. unfold alloc. simpl.
  assert (base !! fresh (dom h) = None) as Hfresh.
  { apply not_elem_of_dom. intros Hin.
    apply (is_fresh (dom h)). revert Hin. by apply subseteq_dom. }
  split; [by apply insert_subseteq_r |]. by intros ? [= <-].
Qed.

Lemma preserves_list_append l x :
  base !! l = None -> preserves base (list_append l x) (fun _ => True).
Proof.
  intros Hl h Hh. unfold list_append.
  destruct (h !! l) as [[]|]; simpl; try done.
  split; [by apply insert_subseteq_r | done].
Qed.

Lemma preserves_dict_get d k default :
  preserves base (dict_get d k default) (fun _ => True).
Proof.
  intros h Hh. unfold dict_get. by destruct (h !! d) as [[]|].
Qed.

Lemma preserves_dict_set d k v :
  base !! d = None -> preserves base (dict_set d k v) (fun _ => True).
Proof.
  intros Hd h Hh. unfold dict_set.
  destruct (h !! d) as [[]|]; simpl; try done.
  split; [by apply insert_subseteq_r | done].
Qed.

Lemma preserves_for_each {A} (l : list A) (body : A -> M unit) :
  (forall x, x ∈ l -> preserves base (body x) (fun _ => True)) ->
  preserves base (for_each l body) (fun _ => True).
Proof.
  induction l as [|x l IH]; intros Hbody; simpl.
  - by apply preserves_ret.
  - eapply preserves_bind; [apply Hbody; set_solver |].
    intros _ _. apply IH. intros; apply Hbody; set_solver.
Qed.

Lemma preserves_for_list {A B} (l : list A) (f : A -> M B) (post : B -> Prop) :
  (forall x, preserves base (f x) post) ->
  preserves base (for_list l f) (Forall post).
Proof.
  intros Hf. induction l as [|x l IH]; simpl.
  - by apply preserves_ret.
  - eapply preserves_bind; [apply Hf |]. intros y Hy.
    eapply preserves_bind; [apply IH |]. intros ys Hys.
    apply preserves_ret. by constructor.
Qed.

Lemma preserves_max_scan_M {A K} gt (key : A -> M K) best kbest (l : list A) :
  (forall x, preserves base (key x) (fun _ => True)) ->
  preserves base (max_scan_M gt key best kbest l) (fun _ => True).
Proof.
  intros Hkey. revert best kbest.
  induction l as [|x l IH]; intros best kbest; simpl.
  - by apply preserves_ret.
  - eapply preserves_bind; [apply Hkey |]. intros kx _.
    destruct (gt kx kbest); apply IH.
Qed.

Lemma preserves_max_by_M {A K} gt (key : A -> M K) (l : list A) :
  (forall x, preserves base (key x) (fun _ => True)) ->
  preserves base (max_by_M gt key l) (fun _ => True).
Proof.
  intros Hkey. destruct l as [|x l]; simpl.
  - apply preserves_raise.
  - eapply preserves_bind; [apply Hkey |]. intros kx _.
    by apply preserves_max_scan_M.
Qed.

Lemma getitem_elem {V} (items : list (string * V)) k v :
  getitem items k = Ok v -> (k, v) ∈ items.
Proof.
  induction items as [|[k' v'] items IH]; simpl; [done |].
  destruct (decide (k' = k)) as [->|]; [intros [= ->]; set_solver |].
  intros Hg. apply elem_of_cons. right. by apply IH.
Qed.
End FrameFacts.

Section AnswerFrame.
Context `{SetIteration} (base : heap).
Implicit Types (records : loc).

Local Ltac reads :=
  eapply preserves_bind; [apply preserves_load_rows |]; intros ? _.

Lemma preserves_distribution_of_marks records :
  preserves base (distribution_of_marks records) (fun _ => True).
Proof.
  unfold distribution_of_marks. reads.
  eapply preserves_bind; [apply preserves_alloc |]. intros d Hd.
  eapply preserves_bind; [|intros; by apply preserves_ret].
  apply preserves_for_each. intros mark _.
  eapply preserves_bind; [apply preserves_dict_get |]. intros n _.
  by apply preserves_dict_set.
Qed.

Lemma preserves_highest_average_marks records :
  preserves base (highest_average_marks records) (fun _ => True).
Proof.
  unfold highest_average_marks. reads.
  eapply preserves_bind.
  { apply (preserves_for_list base _ _ (fun p => base !! p.2 = None)).
    intros department.
    eapply preserves_bind; [apply preserves_alloc |]. intros l Hl.
    by apply preserves_ret. }
  intros marks_by_department Hfresh. reads.
  eapply preserves_bind.
  { apply preserves_for_each. intros record _.
    eapply (preserves_bind _ _ _ (fun l => base !! l = None)).
    - apply preserves_lift. intros l Hl%getitem_elem.
      rewrite Forall_forall in Hfresh. by apply (Hfresh _ Hl).
    - intros l Hl. by apply preserves_list_append. }
  intros _ _.
  eapply preserves_bind; [|intros; by apply preserves_ret].
  apply preserves_max_by_M. intros x.
  eapply preserves_bind;
    [by apply (preserves_lift _ _ (fun _ => True)) |]. intros l _.
  eapply preserves_bind; [apply preserves_load_ints |]. intros ms _.
  by apply preserves_ret.
Qed.

Lemma preserves_answer_question question records :
  preserves base (answer_question question records) (fun _ => True).
Proof.
  unfold answer_question.
  repeat (destruct (Str.contains _ (Str.lower question));
          [ first [ apply preserves_distribution_of_marks
                  | apply preserves_highest_average_marks
                  | reads;
                    first [ by apply preserves_ret
                          | eapply preserves_bind;
                            [by apply (preserves_lift _ _ (fun _ => True)) |];
                            intros; by apply preserves_ret ] ]
          | ]).
  by apply preserves_ret.
Qed.
End AnswerFrame.

(** C9. Whatever the question, the call leaves the list of records as it
    was, and with it every object that existed before the call. *)
Theorem records_unchanged `{SetIteration} (question : string) (records : loc)
    (h : heap) (rows : list row) :
  h !! records = Some (ORows rows) ->
  (answer_question question records h).2 !! records = Some (ORows rows)
  /\ forall l o, h !! l = Some o ->
                 (answer_question question records h).2 !! l = Some o.
Proof.
  intros Hrecords.
  destruct (preserves_answer_question h question records h) as [Hsub _];
    [done |].
  assert (forall l o, h !! l = Some o ->
            (answer_question question records h).2 !! l = Some o) as Hkeep.
  { intros l o Hl. by eapply lookup_weaken. }
  split; [by apply Hkeep | done].
Qed.

Lemma records_unchanged_witness :
  (answer_question "distribution of marks" 1%positive sample_heap).2 !! 1%positive
  = Some (ORows sample_rows)
  /\ (answer_question "highest average marks" 1%positive sample_heap).2 !! 1%positive
     = Some (ORows sample_rows).
Proof.
  split.
  - refine (proj1 (records_unchanged "distribution of marks" 1%positive
                     sample_heap sample_rows _)). reflexivity.
  - refine (proj1 (records_unchanged "highest average marks" 1%positive
                     sample_heap sample_rows _)). reflexivity.
Defined.

(** ** The distribution of marks *)

Section TallyFacts.
Implicit Types (items : list (Z * Z)) (marks : list Z) (k v : Z).

Lemma items_get_set items k v k' default :
  items_get (items_set items k v) k' default
  = if decide (k = k') then v else items_get items k' default.
Proof.
  induction items as [|[k0 v0] items IH]; simpl.
  - by destruct (decide (k = k')).
  - destruct (decide (k0 = k)) as [->|Hne]; simpl.
    + by destruct (decide (k = k')).
    + rewrite IH. destruct (decide (k0 = k')) as [->|]; [|done].
      by destruct (decide (k = k')).
Qed.

Lemma items_set_keys items k v :
  (items_set items k v).*1
  = if decide (k ∈ items.*1) then items.*1 else items.*1 ++ [k].
Proof.
  induction items as [|[k0 v0] items IH]; csimpl.
  - destruct (decide (k ∈ [])) as [Hin|]; [by apply elem_of_nil in Hin | done].
  - destruct (decide (k0 = k)) as [->|Hne]; csimpl.
    + destruct (decide (k ∈ k :: items.*1)); [done | set_solver].
    + rewrite IH. destruct (decide (k ∈ items.*1)),
        (decide (k ∈ k0 :: items.*1)); set_solver.
Qed.

Lemma items_set_NoDup items k v : NoDup items.*1 -> NoDup (items_set items k v).*1.
Proof.
  intros Hnd. rewrite items_set_keys. destruct (decide (k ∈ items.*1)); [done |].
  apply NoDup_app. split_and!; [done | set_solver | apply NoDup_singleton].
Qed.

Lemma items_set_elem items k v k' :
  k' ∈ (items_set items k v).*1 <-> k' = k \/ k' ∈ items.*1.
Proof.
  rewrite items_set_keys. destruct (decide (k ∈ items.*1)); set_solver.
Qed.

Lemma items_get_elem items k v default :
  NoDup items.*1 -> (k, v) ∈ items -> items_get items k default = v.
Proof.
  induction items as [|[k0 v0] items IH]; simpl.
  - intros _ Hin. by apply elem_of_nil in Hin.
  - intros [Hk0 Hnd]%NoDup_cons [[= -> ->]|Hin]%elem_of_cons.
    + by rewrite decide_True.
    + rewrite decide_False; [by apply IH |].
      intros ->. apply Hk0. apply list_elem_of_fmap. by exists (k, v).
Qed.

Lemma count_cons {A} `{EqDecision A} (x y : A) (l : list A) :
  count (x :: l) y = ((if decide (x = y) then 1 else 0) + count l y)%Z.
Proof.
  unfold count. rewrite filter_cons.
  destruct (decide (x = y)); simpl; lia.
Qed.

Lemma count_pos {A} `{EqDecision A} (x : A) (l : list A) :
  x ∈ l <-> (1 <= count l x)%Z.
Proof.
  induction l as [|y l IH].
  - split; [intros Hin; by apply elem_of_nil in Hin | unfold count; simpl; lia].
  - rewrite count_cons, elem_of_cons, IH.
    assert (0 <= count l x)%Z by (unfold count; lia).
    destruct (decide (y = x)) as [->|Hne]; [split; [lia | by left] |].
    split; [intros [->|?]; [done | lia] | intros ?; right; lia].
Qed.

Lemma tally_get marks items k :
  items_get (tally marks items) k 0 = (items_get items k 0 + count marks k)%Z.
Proof.
  revert items. induction marks as [|m marks IH]; intros items; simpl.
  - unfold count. simpl. lia.
  - rewrite IH, items_get_set, count_cons.
    destruct (decide (m = k)) as [->|]; lia.
Qed.

Lemma tally_NoDup marks items : NoDup items.*1 -> NoDup (tally marks items).*1.
Proof.
  revert items. induction marks as [|m marks IH]; intros items Hnd; simpl;
    [done |]. by apply IH, items_set_NoDup.
Qed.

Lemma tally_elem marks items k :
  k ∈ (tally marks items).*1 <-> k ∈ items.*1 \/ k ∈ marks.
Proof.
  revert items. induction marks as [|m marks IH]; intros items; simpl.
  - set_solver.
  - rewrite IH, items_set_elem. set_solver.
Qed.

Lemma counting_step d m items (h : heap) :
  h !! d = Some (ODict items) ->
  (n ← dict_get d m 0; dict_set d m (n + 1)) h
  = (Ok (), <[d := ODict (items_set items m (items_get items m 0 + 1))]> h).
Proof.
  intros Hd. rewrite bind_eq. unfold dict_get at 1. rewrite Hd.
  unfold dict_set. by rewrite Hd.
Qed.

(** The loop of [distribution_of_marks], run on the dict at [d]. *)
Lemma counting_loop d marks items (h : heap) :
  h !! d = Some (ODict items) ->
  for_each marks (fun mark => n ← dict_get d mark 0; dict_set d mark (n + 1)) h
  = (Ok (), <[d := ODict (tally marks items)]> h).
Proof.
  revert items h. induction marks as [|m marks IH]; intros items h Hd; simpl.
  - by rewrite insert_id.
  - rewrite bind_eq, (counting_step d m items h Hd).
    rewrite (IH (items_set items m (items_get items m 0 + 1))).
    + by rewrite insert_insert_eq.
    + by rewrite lookup_insert_eq.
Qed.
End TallyFacts.

(** C6. Asked for the distribution of marks (and for nothing tried before
    it), the call returns a new dict that maps each marks value of the
    records to the number of records having it, and holds no other key;
    marks 70, 70, 85 give [{70: 2, 85: 1}]. *)
Theorem marks_distribution `{SetIteration} (question : string) (records : loc)
    (h : heap) (rows : list row) :
  h !! records = Some (ORows rows) ->
  asks question "distribution of marks" ->
  exists d items,
    answer_question question records h = (Ok (ADict d), <[d := ODict items]> h)
    /\ h !! d = None
    /\ NoDup items.*1
    /\ (forall k, k ∈ items.*1 <-> k ∈ MARKS <$> rows)
    /\ (forall k v, (k, v) ∈ items -> v = count (MARKS <$> rows) k)
    /\ (forall k, items_get items k 0 = count (MARKS <$> rows) k)
    /\ (MARKS <$> rows = [70; 70; 85]%Z -> items = [(70, 2); (85, 1)]%Z).
Proof.
  intros Hrecords Hasks.
  rewrite (asks_dispatch question "distribution of marks" distribution_of_marks)
    by (done || (unfold triggers; set_solver)).
  unfold distribution_of_marks, mbind, M_bind.
  rewrite (load_rows_ok _ _ _ Hrecords). unfold alloc.
  set (d := fresh (dom h)).
  assert (h !! d = None) as Hd by apply not_elem_of_dom, is_fresh.
  rewrite (counting_loop d (MARKS <$> rows) []) by apply lookup_insert_eq.
  rewrite insert_insert_eq. simpl.
  exists d, (tally (MARKS <$> rows) []).
  assert (NoDup (tally (MARKS <$> rows) []).*1) as Hnd
    by apply tally_NoDup, NoDup_nil_2.
  assert (forall k, items_get (tally (MARKS <$> rows) []) k 0
                    = count (MARKS <$> rows) k) as Hget
    by (intros k; rewrite tally_get; simpl; lia).
  split_and!; try done.
  - intros k. rewrite tally_elem. set_solver.
  - intros k v Hin. by rewrite <- Hget, (items_get_elem _ k v 0 Hnd Hin).
  - by intros ->.
Qed.

Lemma marks_distribution_witness :
  exists d items,
    answer_question "Show the distribution of marks" 1%positive sample_heap
    = (Ok (ADict d), <[d := ODict items]> sample_heap)
    /\ items = [(70, 2); (85, 1)]%Z.
Proof.
  destruct (marks_distribution "Show the distribution of marks" 1%positive
              sample_heap sample_rows) as (d & items & E & _ & _ & _ & _ & _ & Hex).
  - reflexivity.
  - split; [apply contains_occurs; vm_compute; reflexivity |].
    simpl. repeat constructor; apply contains_false; vm_compute; reflexivity.
  - exists d, items. split; [exact E | apply Hex; reflexivity].
Defined.

(** ** The department with the highest average marks *)

Section DepartmentFacts.
Implicit Types (h : heap) (rows : list row) (d : string) (l : loc)
  (mbd : list (string * loc)).







End DepartmentFacts.



(** ** Printing numbers *)

Section PrettyFacts.
Implicit Types (n x : N) (s : string).








End PrettyFacts.

Example format_2f_ties :
  F64.format_2f (F64.div (F64.of_int 4001) (F64.of_int 200)) = "20.00"
  /\ F64.format_2f (F64.div (F64.of_int 3) (F64.of_int 8)) = "0.38"
  /\ F64.format_2f (F64.div (F64.of_int (-1)) (F64.of_int 8)) = "-0.12"
  /\ F64.format_2f (np_mean []) = "nan".
Proof. vm_compute. done. Qed.



(** ** Hobby tokens *)

Section TokenFacts.
Context `{SetIteration}.
Implicit Types (rows : list row) (h : heap).

Lemma empty_token rows record :
  record ∈ rows -> HOBBY record = "" -> "" ∈ tokens (HOBBY <$> rows).
Proof.
  intros Hin Hempty. unfold tokens. apply list_elem_of_bind.
  exists "". split; [vm_compute; apply list_elem_of_In; by left |].
  apply list_elem_of_fmap. by exists record.
Qed.

Lemma Z_gtb_irrefl (a : Z) : (a >? a)%Z = false.
Proof. lia. Qed.

Lemma Z_gtb_trans (a b c : Z) :
  (a >? b)%Z = true -> (b >? c)%Z = true -> (a >? c)%Z = true.
Proof. lia. Qed.
End TokenFacts.

(** C10. A record whose hobbies string is empty contributes the token [""]:
    splitting it on commas gives the single empty token, which is listed by
    "all student hobbies" and is one of the candidates "common hobbies"
    counts (the hobby it names is at least as frequent). *)
Theorem empty_hobbies_token `{SetIteration} (question : string) (records : loc)
    (h : heap) (rows : list row) (record : row) :
  h !! records = Some (ORows rows) ->
  record ∈ rows ->
  HOBBY record = "" ->
  Str.split "," (HOBBY record) = [""]
  /\ (asks question "all student hobbies" ->
      exists l, answer_question question records h = (Ok (AStrs l), h)
                /\ "" ∈ l)
  /\ (asks question "common hobbies" ->
      exists hobby,
        answer_question question records h =
          (Ok (AStr ("The most common hobby among students is "
                     +:+ hobby +:+ ".")), h)
        /\ "" ∈ set_iter (tokens (HOBBY <$> rows))
        /\ (1 <= count (tokens (HOBBY <$> rows)) "")%Z
        /\ (count (tokens (HOBBY <$> rows)) ""
            <= count (tokens (HOBBY <$> rows)) hobby)%Z).
Proof.
  intros Hrecords Hin Hempty.
  pose proof (empty_token rows record Hin Hempty) as Htoken.
  split_and!.
  - by rewrite Hempty.
  - intros Hasks.
    rewrite (asks_dispatch question "all student hobbies" all_student_hobbies)
      by (done || (unfold triggers; set_solver)).
    unfold all_student_hobbies. rewrite bind_eq, (load_rows_ok _ _ _ Hrecords).
    eexists. split; [reflexivity |]. by apply set_iter_elem.
  - intros Hasks.
    rewrite (asks_dispatch question "common hobbies" common_hobbies)
      by (done || (unfold triggers; set_solver)).
    unfold common_hobbies. rewrite bind_eq, (load_rows_ok _ _ _ Hrecords).
    set (all_hobbies := tokens (HOBBY <$> rows)) in *.
    assert ("" ∈ set_iter all_hobbies) as Hcand by by apply set_iter_elem.
    destruct (max_by_maximal Z.gtb (count all_hobbies) Z_gtb_irrefl Z_gtb_trans
                (set_iter all_hobbies)) as (hobby & E & _ & Hmax).
    { intros Hnil. rewrite Hnil in Hcand. by apply elem_of_nil in Hcand. }
    exists hobby. rewrite bind_eq. unfold lift. rewrite E.
    split_and!; [done | done | by apply count_pos |].
    specialize (Hmax "" Hcand). lia.
Qed.

Lemma empty_hobbies_token_witness :
  Str.split "," "" = [""]
  /\ (exists l, answer_question "List all student hobbies" 1%positive sample_heap
                = (Ok (AStrs l), sample_heap) /\ "" ∈ l)
  /\ (exists hobby,
        answer_question "What are the common hobbies?" 1%positive sample_heap =
          (Ok (AStr ("The most common hobby among students is "
                     +:+ hobby +:+ ".")), sample_heap)
        /\ (1 <= count (tokens (HOBBY <$> sample_rows)) "")%Z).
Proof.
  destruct (empty_hobbies_token "List all student hobbies" 1%positive
              sample_heap sample_rows
              (Row 2 "Bilal" 22 70 "Physics" "" "football"))
    as (Hsplit & Hall & _).
  { reflexivity. }
  { apply list_elem_of_In. simpl. tauto. }
  { reflexivity. }
  destruct (empty_hobbies_token "What are the common hobbies?" 1%positive
              sample_heap sample_rows
              (Row 2 "Bilal" 22 70 "Physics" "" "football"))
    as (_ & _ & Hcommon).
  { reflexivity. }
  { apply list_elem_of_In. simpl. tauto. }
  { reflexivity. }
  split; [exact Hsplit |]. split.
  - apply Hall. split; [apply contains_occurs; vm_compute; reflexivity |].
    simpl. repeat constructor; apply contains_false; vm_compute; reflexivity.
  - destruct Hcommon as (hobby & E & _ & Hone & _).
    + split; [apply contains_occurs; vm_compute; reflexivity |].
      simpl. repeat constructor; apply contains_false; vm_compute; reflexivity.
    + by exists hobby.
Defined.

(* ================================================================== *)
(** * Further properties of [answer_question] *)

Section AnswerMore.
Context `{SetIteration}.
Implicit Types (question : string) (records : loc) (h : heap) (rows : list row).

Lemma set_iter_nil {A} `{EqDecision A} : set_iter (@nil A) = [].
Proof.
  destruct (set_iter (@nil A)) as [|x l] eqn:E; [done |].
  assert (x ∈ set_iter (@nil A)) as Hx by (rewrite E; set_solver).
  apply set_iter_elem in Hx. by apply elem_of_nil in Hx.
Qed.

Lemma set_iter_nonempty {A} `{EqDecision A} (l : list A) :
  l <> [] -> set_iter l <> [].
Proof.
  destruct l as [|x l]; [done |]. intros _ Hnil.
  assert (x ∈ set_iter (x :: l)) as Hx by (apply set_iter_elem; set_solver).
  rewrite Hnil in Hx. by apply elem_of_nil in Hx.
Qed.

Lemma tokens_nonempty rows : rows <> [] -> tokens (HOBBY <$> rows) <> [].
Proof.
  destruct rows as [|r rows]; [done |]. intros _. unfold tokens. csimpl.
  destruct (split_upto_head (String.length (HOBBY r)) "," (HOBBY r))
    as (x & rest & Hx).
  unfold Str.split. by rewrite Hx.
Qed.

Lemma count_nonneg {A} `{EqDecision A} (l : list A) (x : A) : (0 <= count l x)%Z.
Proof. unfold count. lia. Qed.

Lemma count_absent {A} `{EqDecision A} (l : list A) (x : A) :
  x ∉ l -> count l x = 0%Z.
Proof.
  intros Hx. pose proof (count_nonneg l x).
  destruct (decide (1 <= count l x)%Z) as [Hc|]; [|lia].
  by apply count_pos in Hc.
Qed.
End AnswerMore.

(** X1. Asked for the highest marks, the call raises [ValueError] on an
    empty table and otherwise names the greatest marks of the records. *)
Theorem highest_marks_maximum `{SetIteration} (question : string) (records : loc)
    (h : heap) (rows : list row) :
  h !! records = Some (ORows rows) ->
  asks question "highest marks" ->
  (rows = [] -> answer_question question records h = (Raise ValueError, h))
  /\ (rows <> [] ->
      exists best,
        answer_question question records h =
          (Ok (AStr ("The highest marks achieved is " +:+ pretty best +:+ ".")), h)
        /\ best ∈ MARKS <$> rows
        /\ forall x, x ∈ MARKS <$> rows -> (x <= best)%Z).
Proof.
  intros Hrecords Hasks.
  rewrite (asks_dispatch question "highest marks" highest_marks)
    by (done || (unfold triggers; set_solver)).
  unfold highest_marks. rewrite bind_eq, (load_rows_ok _ _ _ Hrecords).
  rewrite bind_eq. unfold lift. split.
  - by intros ->.
  - intros Hrows.
    destruct (max_by_maximal Z.gtb id Z_gtb_irrefl Z_gtb_trans (MARKS <$> rows))
      as (best & -> & Hin & Hmax).
    { by destruct rows. }
    exists best. split_and!; [done | done |].
    intros x Hx. specialize (Hmax x Hx). unfold id in Hmax. lia.
Qed.

Lemma highest_marks_maximum_witness :
  answer_question "highest marks?" 1%positive {[ 1%positive := ORows [] ]}
  = (Raise ValueError, {[ 1%positive := ORows [] ]})
  /\ exists best,
       answer_question "highest marks?" 1%positive sample_heap =
         (Ok (AStr ("The highest marks achieved is " +:+ pretty best +:+ ".")),
          sample_heap)
       /\ (70 <= best)%Z.
Proof.
  assert (asks "highest marks?" "highest marks") as Hasks.
  { split; [apply contains_occurs; vm_compute; reflexivity |].
    simpl. repeat constructor; apply contains_false; vm_compute; reflexivity. }
  split.
  - destruct (highest_marks_maximum "highest marks?" 1%positive
                {[ 1%positive := ORows [] ]} []) as [Hempty _];
      [reflexivity | exact Hasks |]. by apply Hempty.
  - destruct (highest_marks_maximum "highest marks?" 1%positive
                sample_heap sample_rows) as [_ Hsome];
      [reflexivity | exact Hasks |].
    destruct Hsome as (best & E & _ & Hmax); [discriminate |].
    exists best. split; [exact E |]. apply Hmax.
    apply list_elem_of_In. simpl. tauto.
Defined.

(** X2. Asked for the most common hobby over at least one record, the call
    names a hobby token that no token outnumbers; on an empty table it
    raises [ValueError]. *)
Theorem common_hobby_is_mode `{SetIteration} (question : string) (records : loc)
    (h : heap) (rows : list row) :
  h !! records = Some (ORows rows) ->
  asks question "common hobbies" ->
  (rows = [] -> answer_question question records h = (Raise ValueError, h))
  /\ (rows <> [] ->
      exists hobby,
        answer_question question records h =
          (Ok (AStr ("The most common hobby among students is "
                     +:+ hobby +:+ ".")), h)
        /\ hobby ∈ tokens (HOBBY <$> rows)
        /\ forall token, (count (tokens (HOBBY <$> rows)) token
                          <= count (tokens (HOBBY <$> rows)) hobby)%Z).
Proof.
  intros Hrecords Hasks.
  rewrite (asks_dispatch question "common hobbies" common_hobbies)
    by (done || (unfold triggers; set_solver)).
  unfold common_hobbies. rewrite bind_eq, (load_rows_ok _ _ _ Hrecords).
  rewrite bind_eq. unfold lift. split.
  - intros ->. simpl. by rewrite set_iter_nil.
  - intros Hrows. set (all_hobbies := tokens (HOBBY <$> rows)).
    destruct (max_by_maximal Z.gtb (count all_hobbies) Z_gtb_irrefl Z_gtb_trans
                (set_iter all_hobbies)) as (hobby & -> & Hin & Hmax).
    { by apply set_iter_nonempty, tokens_nonempty. }
    exists hobby. apply set_iter_elem in Hin. split_and!; [done | done |].
    intros token. destruct (decide (token ∈ all_hobbies)) as [Ht|Ht].
    + apply (proj2 (set_iter_elem _ _ _)) in Ht.
      specialize (Hmax token Ht). lia.
    + rewrite (count_absent _ _ Ht). apply count_nonneg.
Qed.

Lemma common_hobby_is_mode_witness :
  exists hobby,
    answer_question "common hobbies" 1%positive sample_heap =
      (Ok (AStr ("The most common hobby among students is "
                 +:+ hobby +:+ ".")), sample_heap)
    /\ (2 <= count (tokens (HOBBY <$> sample_rows)) hobby)%Z.
Proof.
  assert (asks "common hobbies" "common hobbies") as Hasks.
  { split; [apply contains_occurs; vm_compute; reflexivity |].
    simpl. repeat constructor; apply contains_false; vm_compute; reflexivity. }
  destruct (common_hobby_is_mode "common hobbies" 1%positive
              sample_heap sample_rows) as [_ Hsome];
    [reflexivity | exact Hasks |].
  destruct Hsome as (hobby & E & _ & Hmax); [discriminate |].
  exists hobby. split; [exact E |].
  assert (count (tokens (HOBBY <$> sample_rows)) "chess" = 2%Z) as E2
    by (vm_compute; reflexivity).
  specialize (Hmax "chess"). by rewrite E2 in Hmax.
Defined.

(** X3. The three listings of a column hold each value of the column
    exactly once. *)
Theorem column_values_listed_once `{SetIteration} (question : string)
    (records : loc) (h : heap) (rows : list row) :
  h !! records = Some (ORows rows) ->
  (asks question "all student names" ->
   exists l, answer_question question records h = (Ok (AStrs l), h)
             /\ NoDup l /\ forall x, x ∈ l <-> x ∈ NAME <$> rows)
  /\ (asks question "all student ages" ->
      exists l, answer_question question records h = (Ok (AInts l), h)
                /\ NoDup l /\ forall x, x ∈ l <-> x ∈ AGE <$> rows)
  /\ (asks question "all student departments" ->
      exists l, answer_question question records h = (Ok (AStrs l), h)
                /\ NoDup l /\ forall x, x ∈ l <-> x ∈ DEPARTMENT <$> rows).
Proof.
  intros Hrecords. split_and!; intros Hasks.
  - rewrite (asks_dispatch question "all student names" all_student_names)
      by (done || (unfold triggers; set_solver)).
    unfold all_student_names. rewrite bind_eq, (load_rows_ok _ _ _ Hrecords).
    eexists. split; [reflexivity |].
    split; [apply set_iter_NoDup | intros x; apply set_iter_elem].
  - rewrite (asks_dispatch question "all student ages" all_student_ages)
      by (done || (unfold triggers; set_solver)).
    unfold all_student_ages. rewrite bind_eq, (load_rows_ok _ _ _ Hrecords).
    eexists. split; [reflexivity |].
    split; [apply set_iter_NoDup | intros x; apply set_iter_elem].
  - rewrite (asks_dispatch question "all student departments"
               all_student_departments)
      by (done || (unfold triggers; set_solver)).
    unfold all_student_departments.
    rewrite bind_eq, (load_rows_ok _ _ _ Hrecords).
    eexists. split; [reflexivity |].
    split; [apply set_iter_NoDup | intros x; apply set_iter_elem].
Qed.

Lemma column_values_listed_once_witness :
  exists l, answer_question "all student departments" 1%positive sample_heap
            = (Ok (AStrs l), sample_heap)
            /\ NoDup l /\ "Physics" ∈ l.
Proof.
  destruct (column_values_listed_once "all student departments" 1%positive
              sample_heap sample_rows) as (_ & _ & Hdep); [reflexivity |].
  destruct Hdep as (l & E & Hnd & Hl).
  { split; [apply contains_occurs; vm_compute; reflexivity |].
    simpl. repeat constructor; apply contains_false; vm_compute; reflexivity. }
  exists l. split_and!; [exact E | exact Hnd |].
  apply Hl. apply list_elem_of_In. simpl. tauto.
Defined.

Section TokenListFacts.
Implicit Types (rows : list row).

Lemma tokens_elem (l : list string) x :
  x ∈ tokens l <->
  exists s piece, s ∈ l /\ piece ∈ Str.split "," s /\ x = Str.strip piece.
Proof.
  unfold tokens. rewrite list_elem_of_bind. split.
  - intros (s & (piece & -> & Hp)%list_elem_of_fmap & Hs). by exists s, piece.
  - intros (s & piece & Hs & Hp & ->). exists s. split; [|done].
    apply list_elem_of_fmap. by exists piece.
Qed.

Lemma tokens_clean (l : list string) : Forall (clean_ends Char.isspace) (tokens l).
Proof.
  apply Forall_forall. intros x (s & piece & _ & _ & ->)%tokens_elem.
  apply strip_by_clean.
Qed.
End TokenListFacts.

(** X4. The listings of hobbies and of sports hold each token exactly once;
    the tokens are the pieces between the commas of the stored strings,
    without the whitespace around them. *)
Theorem tokens_listed_once `{SetIteration} (question : string) (records : loc)
    (h : heap) (rows : list row) :
  h !! records = Some (ORows rows) ->
  (asks question "all student hobbies" ->
   exists l, answer_question question records h = (Ok (AStrs l), h)
     /\ NoDup l /\ Forall (clean_ends Char.isspace) l
     /\ forall x, x ∈ l <->
          exists record piece, record ∈ rows
            /\ piece ∈ Str.split "," (HOBBY record) /\ x = Str.strip piece)
  /\ (asks question "all student sports" ->
      exists l, answer_question question records h = (Ok (AStrs l), h)
        /\ NoDup l /\ Forall (clean_ends Char.isspace) l
        /\ forall x, x ∈ l <->
             exists record piece, record ∈ rows
               /\ piece ∈ Str.split "," (SPORT record) /\ x = Str.strip piece).
Proof.
  intros Hrecords. split; intros Hasks.
  - rewrite (asks_dispatch question "all student hobbies" all_student_hobbies)
      by (done || (unfold triggers; set_solver)).
    unfold all_student_hobbies. rewrite bind_eq, (load_rows_ok _ _ _ Hrecords).
    eexists. split; [reflexivity |]. split_and!.
    + apply set_iter_NoDup.
    + apply Forall_forall. intros x Hx%set_iter_elem.
      by apply (proj1 (Forall_forall _ _) (tokens_clean (HOBBY <$> rows))).
    + intros x. rewrite set_iter_elem, tokens_elem. split.
      * intros (s & piece & (record & -> & Hr)%list_elem_of_fmap & Hp & ->).
        by exists record, piece.
      * intros (record & piece & Hr & Hp & ->). exists (HOBBY record), piece.
        split; [|done]. apply list_elem_of_fmap. by exists record.
  - rewrite (asks_dispatch question "all student sports" all_student_sports)
      by (done || (unfold triggers; set_solver)).
    unfold all_student_sports. rewrite bind_eq, (load_rows_ok _ _ _ Hrecords).
    eexists. split; [reflexivity |]. split_and!.
    + apply set_iter_NoDup.
    + apply Forall_forall. intros x Hx%set_iter_elem.
      by apply (proj1 (Forall_forall _ _) (tokens_clean (SPORT <$> rows))).
    + intros x. rewrite set_iter_elem, tokens_elem. split.
      * intros (s & piece & (record & -> & Hr)%list_elem_of_fmap & Hp & ->).
        by exists record, piece.
      * intros (record & piece & Hr & Hp & ->). exists (SPORT record), piece.
        split; [|done]. apply list_elem_of_fmap. by exists record.
Qed.

Lemma tokens_listed_once_witness :
  exists l, answer_question "all student sports" 1%positive sample_heap
            = (Ok (AStrs l), sample_heap)
            /\ NoDup l /\ "chess" ∈ l.
Proof.
  destruct (tokens_listed_once "all student sports" 1%positive
              sample_heap sample_rows) as (_ & Hsports); [reflexivity |].
  destruct Hsports as (l & E & Hnd & _ & Hl).
  { split; [apply contains_occurs; vm_compute; reflexivity |].
    simpl. repeat constructor; apply contains_false; vm_compute; reflexivity. }
  exists l. split_and!; [exact E | exact Hnd |].
  apply Hl. exists (Row 3 "Chen" 24 85 "Computer Science" "chess" "cricket, chess"),
    " chess".
  split_and!; [| |vm_compute; reflexivity];
    apply list_elem_of_In; vm_compute; tauto.
Defined.

(** X5. On an empty table the average age is printed as "nan", the count
    of computer science students is 0, the listings are empty, the
    distribution is an empty dict, and the department with the highest
    average marks raises [ValueError]. *)
Theorem empty_table_answers `{SetIteration} (question : string) (records : loc)
    (h : heap) :
  h !! records = Some (ORows []) ->
  (asks question "average age" ->
   answer_question question records h
   = (Ok (AStr "The average age of the students is nan years."), h))
  /\ (asks question "students in the computer science department" ->
      answer_question question records h
      = (Ok (AStr "There are 0 students in the Computer Science department."), h))
  /\ (asks question "distribution of marks" ->
      exists d, answer_question question records h
                = (Ok (ADict d), <[d := ODict []]> h) /\ h !! d = None)
  /\ (asks question "highest average marks" ->
      answer_question question records h = (Raise ValueError, h))
  /\ (asks question "all student names" \/ asks question "all student hobbies"
      \/ asks question "all student departments"
      \/ asks question "all student sports" ->
      answer_question question records h = (Ok (AStrs []), h))
  /\ (asks question "all student ages" ->
      answer_question question records h = (Ok (AInts []), h)).
Proof.
  intros Hrecords. split_and!.
  - intros Hasks.
    rewrite (asks_dispatch question "average age" average_age)
      by (done || (unfold triggers; set_solver)).
    unfold average_age. by rewrite bind_eq, (load_rows_ok _ _ _ Hrecords).
  - intros Hasks.
    rewrite (asks_dispatch question "students in the computer science department"
               computer_science_students)
      by (done || (unfold triggers; set_solver)).
    unfold computer_science_students.
    by rewrite bind_eq, (load_rows_ok _ _ _ Hrecords).
  - intros Hasks.
    rewrite (asks_dispatch question "distribution of marks" distribution_of_marks)
      by (done || (unfold triggers; set_solver)).
    unfold distribution_of_marks.
    rewrite bind_eq, (load_rows_ok _ _ _ Hrecords).
    exists (fresh (dom h)). split; [done |]. apply not_elem_of_dom, is_fresh.
  - intros Hasks.
    rewrite (asks_dispatch question "highest average marks" highest_average_marks)
      by (done || (unfold triggers; set_solver)).
    unfold highest_average_marks.
    rewrite bind_eq, (load_rows_ok _ _ _ Hrecords).
    change (DEPARTMENT <$> []) with (@nil string). rewrite set_iter_nil.
    rewrite bind_eq. simpl.
    by rewrite bind_eq, (load_rows_ok _ _ _ Hrecords).
  - intros [Hasks|[Hasks|[Hasks|Hasks]]].
    + rewrite (asks_dispatch question "all student names" all_student_names)
        by (done || (unfold triggers; set_solver)).
      unfold all_student_names. rewrite bind_eq, (load_rows_ok _ _ _ Hrecords).
      change (NAME <$> []) with (@nil string). by rewrite set_iter_nil.
    + rewrite (asks_dispatch question "all student hobbies" all_student_hobbies)
        by (done || (unfold triggers; set_solver)).
      unfold all_student_hobbies. rewrite bind_eq, (load_rows_ok _ _ _ Hrecords).
      change (tokens (HOBBY <$> [])) with (@nil string). by rewrite set_iter_nil.
    + rewrite (asks_dispatch question "all student departments"
                 all_student_departments)
        by (done || (unfold triggers; set_solver)).
      unfold all_student_departments.
      rewrite bind_eq, (load_rows_ok _ _ _ Hrecords).
      change (DEPARTMENT <$> []) with (@nil string). by rewrite set_iter_nil.
    + rewrite (asks_dispatch question "all student sports" all_student_sports)
        by (done || (unfold triggers; set_solver)).
      unfold all_student_sports. rewrite bind_eq, (load_rows_ok _ _ _ Hrecords).
      change (tokens (SPORT <$> [])) with (@nil string). by rewrite set_iter_nil.
  - intros Hasks.
    rewrite (asks_dispatch question "all student ages" all_student_ages)
      by (done || (unfold triggers; set_solver)).
    unfold all_student_ages. rewrite bind_eq, (load_rows_ok _ _ _ Hrecords).
    change (AGE <$> []) with (@nil Z). by rewrite set_iter_nil.
Qed.

Lemma empty_table_answers_witness :
  answer_question "average age" 1%positive {[ 1%positive := ORows [] ]}
  = (Ok (AStr "The average age of the students is nan years."),
     {[ 1%positive := ORows [] ]})
  /\ answer_question "highest average marks" 1%positive
       {[ 1%positive := ORows [] ]}
     = (Raise ValueError, {[ 1%positive := ORows [] ]}).
Proof.
  destruct (empty_table_answers "average age" 1%positive
              {[ 1%positive := ORows [] ]}) as (Hmean & _); [reflexivity |].
  destruct (empty_table_answers "highest average marks" 1%positive
              {[ 1%positive := ORows [] ]}) as (_ & _ & _ & Hbest & _);
    [reflexivity |].
  split.
  - apply Hmean. split; [apply contains_occurs; vm_compute; reflexivity |].
    simpl. constructor.
  - apply Hbest. split; [apply contains_occurs; vm_compute; reflexivity |].
    simpl. repeat constructor; apply contains_false; vm_compute; reflexivity.
Defined.

Section DistributionMore.
Implicit Types (items : list (Z * Z)) (marks : list Z) (k v : Z).

Lemma filter_all {A} (P : A -> Prop) `{forall x, Decision (P x)} (l : list A) :
  (forall x, P x) -> filter P l = l.
Proof.
  intros HP. induction l as [|x l IH]; [done |].
  by rewrite filter_cons_True, IH.
Qed.

Lemma sum_values_set items k :
  sum_values (items_set items k (items_get items k 0 + 1))
  = (sum_values items + 1)%Z.
Proof.
  unfold sum_values. induction items as [|[k0 v0] items IH]; simpl; [lia |].
  destruct (decide (k0 = k)); simpl; lia.
Qed.

Lemma sum_values_tally marks items :
  sum_values (tally marks items)
  = (sum_values items + Z.of_nat (length marks))%Z.
Proof.
  revert items. induction marks as [|m marks IH]; intros items; simpl; [lia |].
  rewrite IH, sum_values_set. lia.
Qed.

Lemma tally_keys marks items :
  (tally marks items).*1
  = items.*1 ++ filter (fun k => k ∉ items.*1) (first_seen marks).
Proof.
  revert items. induction marks as [|m marks IH]; intros items; simpl.
  - by rewrite app_nil_r.
  - rewrite IH, items_set_keys, filter_cons, list_filter_filter.
    destruct (decide (m ∈ items.*1)) as [Hin|Hout].
    + rewrite decide_False by (intros Hn; by apply Hn).
      f_equal. apply list_filter_iff. intros x. naive_solver.
    + rewrite decide_True by done. rewrite <- app_assoc. simpl. do 2 f_equal.
      apply list_filter_iff. intros x. set_solver.
Qed.
End DistributionMore.

(** X6. The counts of the distribution add up to the number of records,
    and its keys stand in the order in which the marks first occur in the
    table. *)
Theorem marks_distribution_totals `{SetIteration} (question : string)
    (records : loc) (h : heap) (rows : list row) :
  h !! records = Some (ORows rows) ->
  asks question "distribution of marks" ->
  exists d items,
    answer_question question records h = (Ok (ADict d), <[d := ODict items]> h)
    /\ sum_values items = Z.of_nat (length rows)
    /\ items.*1 = first_seen (MARKS <$> rows).
Proof.
  intros Hrecords Hasks.
  rewrite (asks_dispatch question "distribution of marks" distribution_of_marks)
    by (done || (unfold triggers; set_solver)).
  unfold distribution_of_marks, mbind, M_bind.
  rewrite (load_rows_ok _ _ _ Hrecords). unfold alloc.
  set (d := fresh (dom h)).
  rewrite (counting_loop d (MARKS <$> rows) []) by apply lookup_insert_eq.
  rewrite insert_insert_eq. simpl.
  exists d, (tally (MARKS <$> rows) []). split_and!; [done | |].
  - rewrite sum_values_tally, length_fmap. unfold sum_values. simpl. lia.
  - rewrite tally_keys. simpl. apply filter_all. intros k.
    apply not_elem_of_nil.
Qed.

Lemma marks_distribution_totals_witness :
  exists d items,
    answer_question "distribution of marks" 1%positive sample_heap
    = (Ok (ADict d), <[d := ODict items]> sample_heap)
    /\ sum_values items = 3%Z /\ items.*1 = [70; 85]%Z.
Proof.
  destruct (marks_distribution_totals "distribution of marks" 1%positive
              sample_heap sample_rows) as (d & items & E & Hsum & Hkeys).
  - reflexivity.
  - split; [apply contains_occurs; vm_compute; reflexivity |].
    simpl. repeat constructor; apply contains_false; vm_compute; reflexivity.
  - by exists d, items.
Defined.

(* ================================================================== *)
(** * Further properties of the text functions *)

Section SplitFacts.
Implicit Types (s t r lit sep : string) (c : ascii).

Lemma partition_length sep s b a :
  Str.partition sep s = Some (b, a) ->
  String.length s = String.length b + String.length sep + String.length a.
Proof. intros ->%partition_Some. rewrite !length_app_s. lia. Qed.

Lemma partition_nil sep : sep <> "" -> Str.partition sep "" = None.
Proof. by destruct sep. Qed.

(** More fuel than the length of the text changes nothing. *)
Lemma split_upto_enough sep s n m :
  sep <> "" -> String.length s <= n -> String.length s <= m ->
  Str.split_upto n sep s = Str.split_upto m sep s.
Proof.
  intros Hsep. revert s m. induction n as [|n IH]; intros s m Hn Hm.
  - destruct s; [|simpl in Hn; lia].
    destruct m; [done |].
    change (Str.split_upto (S m) sep "")
      with (match Str.partition sep "" with
            | Some (before, after) => before :: Str.split_upto m sep after
            | None => [""]
            end).
    by rewrite partition_nil.
  - destruct m as [|m].
    + destruct s; [|simpl in Hm; lia].
      change (Str.split_upto (S n) sep "")
        with (match Str.partition sep "" with
              | Some (before, after) => before :: Str.split_upto n sep after
              | None => [""]
              end).
      by rewrite partition_nil.
    + simpl. destruct (Str.partition sep s) as [[b a]|] eqn:E; [|done].
      apply partition_length in E. f_equal.
      assert (0 < String.length sep) by (destruct sep; [done | simpl; lia]).
      apply IH; lia.
Qed.

Lemma split_partition sep s b a :
  sep <> "" -> Str.partition sep s = Some (b, a) ->
  Str.split sep s = b :: Str.split sep a.
Proof.
  intros Hsep E. unfold Str.split. pose proof (partition_length _ _ _ _ E).
  assert (0 < String.length sep) by (destruct sep; [done | simpl; lia]).
  destruct (String.length s) as [|n] eqn:En; [lia |].
  simpl. rewrite E. f_equal. apply split_upto_enough; [done | lia | lia].
Qed.

Lemma split_hit sep r :
  sep <> "" -> Str.split sep (sep +:+ r) = "" :: Str.split sep r.
Proof.
  intros Hsep. apply split_partition; [done |].
  destruct sep as [|c sep]; [done |]. rewrite app_cons_s. simpl.
  rewrite Ascii.eqb_refl, removeprefix_app. done.
Qed.

Lemma clash_removeprefix lit t r :
  clash lit t = true -> Str.removeprefix lit (t +:+ r) = None.
Proof.
  revert t. induction lit as [|a lit IH]; intros t; [done |].
  destruct t as [|b t]; [done |]. rewrite app_cons_s. simpl.
  destruct (Ascii.eqb a b); simpl; [apply IH | done].
Qed.

Lemma skip_partition sep s r :
  all_clash sep s = true ->
  Str.partition sep (s +:+ r)
  = match Str.partition sep r with
    | Some (b, a) => Some (s +:+ b, a)
    | None => None
    end.
Proof.
  induction s as [|c s IH]; intros Hs.
  - rewrite app_nil_l_s. by destruct (Str.partition sep r) as [[??]|].
  - simpl in Hs. apply andb_prop in Hs as [Hc Hs].
    pose proof (clash_removeprefix sep (String c s) r Hc) as Hnone.
    rewrite app_cons_s in Hnone |- *.
    change (Str.partition sep (String c (s +:+ r)))
      with (match Str.removeprefix sep (String c (s +:+ r)) with
            | Some after => Some ("", after)
            | None => match Str.partition sep (s +:+ r) with
                      | Some (before, after) => Some (String c before, after)
                      | None => None
                      end
            end).
    rewrite Hnone, (IH Hs). by destruct (Str.partition sep r) as [[??]|].
Qed.

Lemma skip_contains sep s r :
  all_clash sep s = true -> Str.contains sep (s +:+ r) = Str.contains sep r.
Proof.
  intros Hs. pose proof (skip_partition sep s r Hs) as E.
  destruct (Str.contains sep r) eqn:Er.
  - destruct (Str.partition sep r) as [[b a]|] eqn:Ep.
    + destruct (Str.contains sep (s +:+ r)) eqn:Esr; [done |].
      apply partition_None in Esr. congruence.
    + apply partition_None in Ep. congruence.
  - apply partition_None in Er. rewrite Er in E. by apply partition_None.
Qed.

Lemma skip_split sep s r :
  sep <> "" -> all_clash sep s = true ->
  Str.split sep (s +:+ r)
  = match Str.split sep r with
    | x :: rest => (s +:+ x) :: rest
    | [] => []
    end.
Proof.
  intros Hsep Hs. pose proof (skip_partition sep s r Hs) as E.
  destruct (Str.partition sep r) as [[b a]|] eqn:Ep.
  - by rewrite (split_partition _ _ _ _ Hsep E), (split_partition _ _ _ _ Hsep Ep).
  - apply partition_None in E, Ep. by rewrite !split_absent.
Qed.

(** A string without the first character of [lit] clashes everywhere. *)
Lemma all_clash_without c lit s :
  all_chars (fun d => negb (Ascii.eqb c d)) s = true ->
  all_clash (String c lit) s = true.
Proof.
  induction s as [|d s IH]; [done |]. simpl.
  intros [Hd Hs]%andb_prop. by rewrite Hd, (IH Hs).
Qed.

Lemma all_chars_app p s t :
  all_chars p (s +:+ t) = all_chars p s && all_chars p t.
Proof.
  induction s as [|c s IH]; [done |]. rewrite app_cons_s. simpl.
  by rewrite IH, andb_assoc.
Qed.

Lemma lstrip_by_lead p s t :
  all_chars p s = true -> Str.lstrip_by p (s +:+ t) = Str.lstrip_by p t.
Proof.
  induction s as [|c s IH]; [done |]. rewrite app_cons_s. simpl.
  intros [-> Hs]%andb_prop. by apply IH.
Qed.

(** Whitespace in front of a string that has none at its ends. *)
Lemma strip_lead s t :
  all_chars Char.isspace s = true -> clean_ends Char.isspace t ->
  Str.strip (s +:+ t) = t.
Proof.
  intros Hs Ht. unfold Str.strip, Str.strip_by at 1.
  rewrite (lstrip_by_lead _ _ _ Hs).
  by apply (strip_by_fixed Char.isspace t).
Qed.
End SplitFacts.

Lemma clean_ends_of_strip p (s : string) :
  Str.strip_by p s = s -> clean_ends p s.
Proof. intros E. rewrite <- E. apply strip_by_clean. Qed.

Section JoinSplit.
Implicit Types (items : list string) (lead : string).

Lemma join_cons x y items :
  Str.join ", " (x :: y :: items)
  = x +:+ "," +:+ " " +:+ Str.join ", " (y :: items).
Proof. reflexivity. Qed.

Lemma split_join lead items :
  items <> [] -> Forall token_like items ->
  all_chars Char.isspace lead = true ->
  all_chars (fun c => negb (Ascii.eqb "," c)) lead = true ->
  Str.strip <$> Str.split "," (lead +:+ Str.join ", " items) = items.
Proof.
  intros Hne Hitems. revert lead.
  induction Hitems as [|x items [Hx Hclean] Hitems IH]; [done |].
  intros lead Hspace Hcomma. destruct items as [|y items].
  - change (Str.join ", " [x]) with x.
    rewrite split_absent; [csimpl; by rewrite strip_lead |].
    rewrite <- (app_nil_r_s (lead +:+ x)), app_assoc_s.
    rewrite !skip_contains by by apply all_clash_without. done.
  - rewrite join_cons.
    rewrite (split_partition "," _ (lead +:+ x +:+ "")
               (" " +:+ Str.join ", " (y :: items))); [|done |].
    + csimpl. rewrite app_nil_r_s, strip_lead by done. f_equal.
      apply IH; done.
    + rewrite !skip_partition by by apply all_clash_without.
      change (Str.partition "," ("," +:+ ?r)) with (Some ("", r)). done.
Qed.
End JoinSplit.

(** X8. Splitting on commas and trimming undoes the joining with [", "]:
    the tokens of stored strings that were joined from non-empty lists of
    comma-free, trimmed items are these items, list after list. *)
Theorem tokens_of_joined (lists : list (list string)) :
  Forall (fun items => items <> [] /\ Forall token_like items) lists ->
  tokens (Str.join ", " <$> lists) = concat lists.
Proof.
  induction 1 as [|items lists [Hne Hitems] _ IH]; [done |].
  unfold tokens in *. csimpl. rewrite IH. f_equal.
  by apply (split_join "" items).
Qed.

Lemma tokens_of_joined_witness :
  tokens (Str.join ", " <$> [["reading"; "chess"]; ["ice hockey"]])
  = ["reading"; "chess"; "ice hockey"].
Proof.
  apply (tokens_of_joined [["reading"; "chess"]; ["ice hockey"]]).
  repeat constructor; try done;
    apply clean_ends_of_strip; vm_compute; reflexivity.
Defined.

(* ================================================================== *)
(** * The extractor on the template *)

Section TemplateFacts.
Implicit Types (s t r g lit sep : string) (c : ascii) (pat : pattern)
  (items : list string).

Lemma re_search_match pat t g : re_match pat t = Some g -> re_search pat t = Some g.
Proof. intros E. destruct t; simpl; by rewrite E. Qed.

Lemma re_search_next pat c t :
  re_match pat (String c t) = None -> re_search pat (String c t) = re_search pat t.
Proof. intros E. simpl. by rewrite E. Qed.

Lemma skip_search pat s r :
  all_clash (literal pat) s = true -> re_search pat (s +:+ r) = re_search pat r.
Proof.
  induction s as [|c s IH]; [done |]. intros Hs. simpl in Hs.
  apply andb_prop in Hs as [Hc Hs].
  rewrite app_cons_s, re_search_next; [by apply IH |].
  unfold re_match. rewrite <- app_cons_s.
  by rewrite (clash_removeprefix _ _ _ Hc).
Qed.

Lemma take_while_run p g c r :
  all_chars p g = true -> p c = false ->
  Str.take_while p (g +:+ String c r) = g.
Proof.
  induction g as [|b g IH]; intros Hg Hc.
  - rewrite app_nil_l_s. simpl. by rewrite Hc.
  - simpl in Hg. apply andb_prop in Hg as [Hb Hg].
    rewrite app_cons_s. simpl. by rewrite Hb, IH.
Qed.

(** The search hits at a label that is followed by a run of the class. *)
Lemma search_hit lit (cls : ascii -> bool) g r :
  g <> "" -> all_chars cls g = true -> cls "010"%char = false ->
  re_search (Pattern lit cls) (lit +:+ g +:+ Str.nl +:+ r) = Some g.
Proof.
  intros Hne Hg Hnl. apply re_search_match. unfold re_match. simpl.
  rewrite removeprefix_app.
  change (Str.nl +:+ r) with (String "010" r).
  rewrite (take_while_run _ _ _ _ Hg Hnl). by destruct g.
Qed.

Lemma skip_split_second sep s r :
  sep <> "" -> all_clash sep s = true ->
  Str.split sep (s +:+ r) !! 1 = Str.split sep r !! 1.
Proof.
  intros Hsep Hs. rewrite (skip_split _ _ _ Hsep Hs).
  by destruct (Str.split sep r).
Qed.

Lemma split_hit_second sep r :
  sep <> "" -> Str.contains sep r = false ->
  Str.split sep (sep +:+ r) !! 1 = Some r.
Proof.
  intros Hsep Hr. by rewrite (split_hit _ _ Hsep), (split_absent _ _ Hr).
Qed.

Lemma plain_no_star s :
  all_chars plain_char s = true ->
  all_chars (fun d => negb (Ascii.eqb "*" d)) s = true.
Proof. apply all_chars_impl. by intros c [? _]%andb_prop. Qed.

Lemma plain_no_nl s :
  all_chars plain_char s = true ->
  all_chars (fun d => negb (Ascii.eqb "010" d)) s = true.
Proof. apply all_chars_impl. by intros c [_ ?]%andb_prop. Qed.

Lemma plain_dot s : all_chars plain_char s = true -> all_chars Char.isdot s = true.
Proof.
  apply all_chars_impl. intros c [_ Hc]%andb_prop.
  unfold Char.isdot. by rewrite Ascii.eqb_sym.
Qed.

Lemma digits_no_star s :
  all_chars Char.isdigit s = true ->
  all_chars (fun d => negb (Ascii.eqb "*" d)) s = true.
Proof.
  apply all_chars_impl. intros c Hc.
  destruct c as [[] [] [] [] [] [] [] []]; vm_compute in Hc |- *;
    first [discriminate Hc | done].
Qed.

Lemma bullets_cons item items :
  bullets (item :: items) = "* " +:+ item +:+ Str.nl +:+ bullets items.
Proof. reflexivity. Qed.

(** No marker starts inside a bullet list of plain items. *)
Lemma skip_contains_bullets sep items r :
  all_clash (String "*" sep) "* " = true ->
  Forall plain items ->
  Str.contains (String "*" sep) (bullets items +:+ r)
  = Str.contains (String "*" sep) r.
Proof.
  intros Hsep. induction 1 as [|item items (_ & Hitem & _) _ IH]; [done |].
  rewrite bullets_cons, !app_assoc_s.
  rewrite skip_contains by done.
  rewrite skip_contains by by apply all_clash_without, plain_no_star.
  rewrite skip_contains by done. done.
Qed.

Lemma skip_split_bullets sep items r :
  all_clash (String "*" sep) "* " = true ->
  Forall plain items ->
  Str.split (String "*" sep) (bullets items +:+ r)
  = match Str.split (String "*" sep) r with
    | x :: rest => (bullets items +:+ x) :: rest
    | [] => []
    end.
Proof.
  intros Hsep. induction 1 as [|item items (_ & Hitem & _) _ IH].
  - change (bullets []) with "". rewrite app_nil_l_s.
    by destruct (Str.split _ r).
  - rewrite bullets_cons, !app_assoc_s.
    rewrite (skip_split _ "* "); [|done|done].
    rewrite (skip_split _ item);
      [|done|by apply all_clash_without, plain_no_star].
    rewrite (skip_split _ Str.nl); [|done|done]. rewrite IH.
    destruct (Str.split _ r); [done |]. by rewrite !app_assoc_s.
Qed.

(** The lines of a bullet list. *)
Lemma bullets_lines items :
  Forall plain items ->
  Str.split Str.nl (bullets items) = (String.append "* " <$> items) ++ [""].
Proof.
  induction 1 as [|item items (_ & Hitem & _) _ IH]; [done |].
  rewrite bullets_cons.
  rewrite (split_partition Str.nl _ ("* " +:+ item +:+ "") (bullets items)).
  - csimpl. by rewrite app_nil_r_s, IH.
  - done.
  - rewrite skip_partition by done.
    rewrite skip_partition by by apply all_clash_without, plain_no_nl.
    change (Str.partition Str.nl (Str.nl +:+ ?x)) with (Some ("", x)). done.
Qed.

Lemma last_char_app (P : ascii -> Prop) s t :
  t <> "" -> (forall r c, t = r +:+ String c "" -> P c) ->
  forall r c, s +:+ t = r +:+ String c "" -> P c.
Proof.
  intros Hne Ht. induction s as [|a s IH]; intros r c; [apply Ht |].
  rewrite app_cons_s. destruct r as [|b r].
  - rewrite app_nil_l_s. intros [= _ E]. by apply app_eq_nil_s in E as [_ ->].
  - rewrite app_cons_s. intros [= _ E]. by apply (IH r c).
Qed.

Lemma all_chars_last p s r c :
  all_chars p s = true -> s = r +:+ String c "" -> p c = true.
Proof.
  intros Hs ->. rewrite all_chars_app in Hs.
  apply andb_prop in Hs as [_ Hc]. simpl in Hc. by rewrite andb_true_r in Hc.
Qed.

(** A bullet line of a plain item is kept, and gives the item back. *)
Lemma bullet_plain item :
  plain item ->
  Str.truthy (Str.strip ("* " +:+ item)) = true
  /\ bullet_item ("* " +:+ item) = item.
Proof.
  intros (Hne & Hplain & [Hfirst Hlast]). split.
  - unfold Str.strip. rewrite strip_by_fixed; [done |]. split.
    + by intros c r [= <- _].
    + by apply last_char_app.
  - unfold bullet_item, Str.strip_chars.
    assert (Str.strip_by (fun c => Str.mem c "* ") ("* " +:+ item) = item) as ->;
      [|by apply strip_by_fixed].
    destruct item as [|a item]; [done |].
    assert (Str.mem a "* " = false) as Ha.
    { specialize (Hfirst a item eq_refl).
      pose proof Hplain as [[Hstar _]%andb_prop _]%andb_prop.
      destruct a as [[] [] [] [] [] [] [] []]; vm_compute in Hfirst, Hstar |- *;
        first [discriminate | done]. }
    unfold Str.strip_by.
    change (Str.lstrip_by (λ c, Str.mem c "* ") ("* " +:+ String a item))
      with (Str.lstrip_by (λ c, Str.mem c "* ") (String a item)).
    rewrite lstrip_by_head by done. apply rstrip_by_fixed.
    intros r c E. specialize (Hlast r c E).
    pose proof (all_chars_last _ _ _ _ Hplain E) as [Hstar _]%andb_prop.
    destruct c as [[] [] [] [] [] [] [] []]; vm_compute in Hlast, Hstar |- *;
      first [discriminate | done].
Qed.

(** The section under a marker gives its bullet list back. *)
Lemma section_items_bullets items :
  Forall plain items -> section_items (Str.nl +:+ bullets items) = items.
Proof.
  intros Hitems. unfold section_items.
  rewrite split_hit by done. rewrite (bullets_lines _ Hitems).
  rewrite filter_cons_False by (vm_compute; discriminate).
  induction Hitems as [|item items Hitem _ IH].
  - change ((String.append "* " <$> []) ++ [""]) with [""].
    by rewrite filter_cons_False by (vm_compute; discriminate).
  - destruct (bullet_plain item Hitem) as [Hkeep Hback].
    csimpl. rewrite filter_cons_True by done. csimpl. by rewrite Hback, IH.
Qed.
End TemplateFacts.

Section RoundTrip.
Variables (n a m d : string) (hs : list string) (tail : string).
Hypothesis (Hn : plain n) (Ha : digits a) (Hm : digits m) (Hd : plain d).
Hypothesis (Hhs : Forall plain hs).

Local Ltac clashes :=
  first [ done
        | apply (all_clash_without "*");
          first [ apply plain_no_star; first [apply Hn | apply Hd]
                | apply digits_no_star; first [apply Ha | apply Hm] ] ].

Local Ltac skip lem piece := rewrite (lem _ piece) by clashes.

Lemma digits_strip s : digits s -> Str.strip s = s.
Proof.
  intros [_ Hs]. apply strip_by_none. eapply all_chars_impl; [|exact Hs].
  intros c [-> _]%isdigit_plain. done.
Qed.

Lemma template_name :
  extract_field name_pattern (profile_with n a m d hs tail) "Unknown" = n.
Proof.
  destruct Hn as (Hne & Hplain & Hclean).
  unfold extract_field, profile_with, name_pattern.
  rewrite search_hit; [| done | by apply plain_dot | done].
  by apply (strip_by_fixed Char.isspace).
Qed.

Lemma template_age :
  extract_field age_pattern (profile_with n a m d hs tail) "0" = a.
Proof.
  destruct Ha as (Hne & Hdigits).
  unfold extract_field, profile_with, age_pattern.
  skip skip_search "**Name:** ". skip skip_search n. skip skip_search Str.nl.
  rewrite search_hit; [| done | done | done].
  by apply digits_strip.
Qed.

Lemma template_marks :
  extract_field marks_pattern (profile_with n a m d hs tail) "0" = m.
Proof.
  destruct Hm as (Hne & Hdigits).
  unfold extract_field, profile_with, marks_pattern.
  skip skip_search "**Name:** ". skip skip_search n. skip skip_search Str.nl.
  skip skip_search "**Age:** ". skip skip_search a. skip skip_search Str.nl.
  rewrite search_hit; [| done | done | done].
  by apply digits_strip.
Qed.

Lemma template_department :
  extract_field department_pattern (profile_with n a m d hs tail) "Unknown" = d.
Proof.
  destruct Hd as (Hne & Hplain & Hclean).
  unfold extract_field, profile_with, department_pattern.
  skip skip_search "**Name:** ". skip skip_search n. skip skip_search Str.nl.
  skip skip_search "**Age:** ". skip skip_search a. skip skip_search Str.nl.
  skip skip_search "**Marks:** ". skip skip_search m. skip skip_search Str.nl.
  rewrite search_hit; [| done | by apply plain_dot | done].
  by apply (strip_by_fixed Char.isspace).
Qed.

Lemma template_hobbies :
  Str.contains "**Hobbies:**" ("**Sport:**" +:+ tail) = false ->
  hobbies_items (profile_with n a m d hs tail) = Ok hs.
Proof.
  intros Htail. unfold hobbies_items, index, profile_with.
  skip skip_split_second "**Name:** ". skip skip_split_second n.
  skip skip_split_second Str.nl.
  skip skip_split_second "**Age:** ". skip skip_split_second a.
  skip skip_split_second Str.nl.
  skip skip_split_second "**Marks:** ". skip skip_split_second m.
  skip skip_split_second Str.nl.
  skip skip_split_second "**Department:** ". skip skip_split_second d.
  skip skip_split_second Str.nl.
  rewrite split_hit_second; [|done|].
  2:{ rewrite skip_contains by done.
      by rewrite skip_contains_bullets by done. }
  csimpl.
  rewrite (skip_split _ Str.nl) by done.
  rewrite skip_split_bullets by done.
  rewrite split_hit by done. csimpl.
  by rewrite app_nil_r_s, section_items_bullets.
Qed.

Lemma template_sports :
  Str.contains "**Sport:**" tail = false ->
  sports_items (profile_with n a m d hs tail) = Ok (section_items tail).
Proof.
  intros Htail. unfold sports_items, index, profile_with.
  skip skip_split_second "**Name:** ". skip skip_split_second n.
  skip skip_split_second Str.nl.
  skip skip_split_second "**Age:** ". skip skip_split_second a.
  skip skip_split_second Str.nl.
  skip skip_split_second "**Marks:** ". skip skip_split_second m.
  skip skip_split_second Str.nl.
  skip skip_split_second "**Department:** ". skip skip_split_second d.
  rewrite <- (app_assoc_s Str.nl "**Hobbies:**").
  rewrite <- (app_assoc_s (Str.nl +:+ "**Hobbies:**") Str.nl).
  skip skip_split_second (Str.nl +:+ "**Hobbies:**" +:+ Str.nl).
  rewrite skip_split_bullets by done.
  rewrite split_hit by done.
  by rewrite (split_absent "**Sport:**" tail).
Qed.

(** The whole record, for a tail that holds no marker. *)
Lemma template_with age_ marks_ :
  int a = Ok age_ -> int m = Ok marks_ ->
  Str.contains "**Hobbies:**" ("**Sport:**" +:+ tail) = false ->
  Str.contains "**Sport:**" tail = false ->
  extract_student_info (profile_with n a m d hs tail)
  = Ok (StudentInfo n age_ marks_ d (Str.join ", " hs)
          (Str.join ", " (section_items tail))).
Proof.
  intros Eage Emarks Hh Hs. unfold extract_student_info.
  rewrite template_name, template_age, Eage, template_marks, Emarks.
  rewrite template_department, (template_hobbies Hh), (template_sports Hs).
  done.
Qed.
End RoundTrip.

Section Tails.
Implicit Types (items ss : list string) (s pre : string).

Lemma no_marker_in_bullets sep items :
  all_clash (String "*" sep) "* " = true -> Forall plain items ->
  Str.contains (String "*" sep) (bullets items) = false.
Proof.
  intros Hsep Hitems. rewrite <- (app_nil_r_s (bullets items)).
  by rewrite skip_contains_bullets.
Qed.

Lemma open_bullets_cons item items :
  open_bullets (item :: items)
  = Str.nl +:+ "* " +:+ item +:+ open_bullets items.
Proof. reflexivity. Qed.

(** The two ways of writing a bullet list under a marker line. *)
Lemma open_bullets_nl items :
  open_bullets items +:+ Str.nl = Str.nl +:+ bullets items.
Proof.
  induction items as [|item items IH]; [done |].
  rewrite open_bullets_cons, bullets_cons, !app_assoc_s. by rewrite IH.
Qed.

Lemma occurs_app_r sub s t : occurs sub s -> occurs sub (s +:+ t).
Proof.
  intros (pre & suf & ->). exists pre, (suf +:+ t). by rewrite !app_assoc_s.
Qed.

Lemma occurs_app_l sub s t : occurs sub t -> occurs sub (s +:+ t).
Proof.
  intros (pre & suf & ->). exists (s +:+ pre), suf. by rewrite !app_assoc_s.
Qed.

Lemma no_marker_in_open_bullets sep pre items :
  all_clash (String "*" sep) "* " = true ->
  all_clash (String "*" sep) (pre +:+ Str.nl) = true ->
  Forall plain items ->
  Str.contains (String "*" sep) (pre +:+ open_bullets items) = false.
Proof.
  intros Hsep Hpre Hitems. apply contains_false. intros Hocc.
  apply (occurs_app_r _ _ Str.nl) in Hocc.
  rewrite app_assoc_s, open_bullets_nl, <- app_assoc_s in Hocc.
  apply contains_occurs in Hocc.
  rewrite skip_contains, no_marker_in_bullets in Hocc; done.
Qed.

Lemma open_bullets_lines item items :
  Forall plain (item :: items) ->
  Str.split Str.nl ("* " +:+ item +:+ open_bullets items)
  = String.append "* " <$> (item :: items).
Proof.
  revert item. induction items as [|next items IH]; intros item Hitems.
  - apply Forall_cons in Hitems as [(_ & Hitem & _) _].
    rewrite split_absent; [csimpl; by rewrite app_nil_r_s |].
    rewrite skip_contains by done.
    by rewrite skip_contains by by apply all_clash_without, plain_no_nl.
  - apply Forall_cons in Hitems as [(_ & Hitem & _) Hitems].
    rewrite open_bullets_cons.
    rewrite (split_partition Str.nl _ ("* " +:+ item +:+ "")
               ("* " +:+ next +:+ open_bullets items)).
    + rewrite app_nil_r_s, (IH next Hitems). done.
    + done.
    + rewrite skip_partition by done.
      rewrite skip_partition by by apply all_clash_without, plain_no_nl.
      change (Str.partition Str.nl (Str.nl +:+ ?x)) with (Some ("", x)). done.
Qed.

Lemma bullet_lines_items items :
  Forall plain items ->
  bullet_item <$> filter (fun item => Str.truthy (Str.strip item) = true)
                         (String.append "* " <$> items) = items.
Proof.
  induction 1 as [|item items Hitem _ IH]; [done |].
  destruct (bullet_plain item Hitem) as [Hkeep Hback].
  csimpl. rewrite filter_cons_True by done. csimpl. by rewrite Hback, IH.
Qed.

Lemma section_items_open_bullets items :
  Forall plain items -> section_items (open_bullets items) = items.
Proof.
  intros Hitems. unfold section_items. destruct items as [|item items].
  - change (Str.split Str.nl (open_bullets [])) with [""].
    by rewrite filter_cons_False by (vm_compute; discriminate).
  - rewrite open_bullets_cons, split_hit by done.
    rewrite filter_cons_False by (vm_compute; discriminate).
    rewrite (open_bullets_lines _ _ Hitems). by apply bullet_lines_items.
Qed.

Lemma rstrip_by_trailing p s t :
  all_chars p t = true -> Str.rstrip_by p (s +:+ t) = Str.rstrip_by p s.
Proof.
  intros Ht. induction s as [|c s IH].
  - rewrite app_nil_l_s. induction t as [|b t IHt]; [done |]. simpl in *.
    apply andb_prop in Ht as [Hb Ht]. by rewrite (IHt Ht), Hb.
  - rewrite app_cons_s. simpl. by rewrite IH.
Qed.

(** A text that ends with an open bullet list ends without whitespace. *)
Lemma open_bullets_last pre items :
  pre <> "" ->
  (forall r c, pre = r +:+ String c "" -> Char.isspace c = false) ->
  Forall plain items ->
  forall r c, pre +:+ open_bullets items = r +:+ String c "" ->
              Char.isspace c = false.
Proof.
  intros Hne Hpre Hitems. revert pre Hne Hpre.
  induction Hitems as [|item items (Hitem & _ & _ & Hlast) _ IH];
    intros pre Hne Hpre r c.
  - change (open_bullets []) with "". by rewrite app_nil_r_s; apply Hpre.
  - rewrite open_bullets_cons.
    rewrite <- !app_assoc_s.
    apply IH.
    + rewrite !app_assoc_s. by destruct pre.
    + rewrite !app_assoc_s, <- (app_assoc_s pre), <- (app_assoc_s (pre +:+ Str.nl)).
      by apply last_char_app.
Qed.
End Tails.

Section TemplateRecords.
Variables (n a m d : string) (hs ss : list string) (age_ marks_ : Z).
Hypothesis (Hn : plain n) (Ha : digits a) (Hm : digits m) (Hd : plain d).
Hypothesis (Hhs : Forall plain hs) (Hss : Forall plain ss).
Hypothesis (Eage : int a = Ok age_) (Emarks : int m = Ok marks_).

Lemma profile_text_nl :
  profile_text n a m d hs ss
  = profile_with n a m d hs (open_bullets ss) +:+ Str.nl.
Proof.
  change (profile_text n a m d hs ss)
    with (profile_with n a m d hs (Str.nl +:+ bullets ss)).
  rewrite <- open_bullets_nl. unfold profile_with. by rewrite !app_assoc_s.
Qed.

(** Stripping the template takes its last line feed away. *)
Lemma profile_text_strip :
  Str.strip (profile_text n a m d hs ss)
  = profile_with n a m d hs (open_bullets ss).
Proof.
  rewrite profile_text_nl. unfold Str.strip, Str.strip_by.
  change (Str.lstrip_by Char.isspace
            (profile_with n a m d hs (open_bullets ss) +:+ Str.nl))
    with (profile_with n a m d hs (open_bullets ss) +:+ Str.nl).
  rewrite rstrip_by_trailing by done. apply rstrip_by_fixed.
  unfold profile_with. rewrite <- !app_assoc_s.
  apply open_bullets_last; [| |done].
  - intros [_ ?]%app_eq_nil_s. done.
  - apply last_char_app; [done |]. intros r c E.
    assert (negb (Char.isspace c) = true) as Hc; [|by destruct (Char.isspace c)].
    apply (all_chars_last (fun c => negb (Char.isspace c)) "**Sport:**" r c);
      [vm_compute; reflexivity | exact E].
Qed.

Lemma template_closed :
  extract_student_info (profile_text n a m d hs ss)
  = Ok (StudentInfo n age_ marks_ d (Str.join ", " hs) (Str.join ", " ss)).
Proof.
  change (profile_text n a m d hs ss)
    with (profile_with n a m d hs (Str.nl +:+ bullets ss)).
  rewrite (template_with n a m d hs _ Hn Ha Hm Hd Hhs age_ marks_ Eage Emarks).
  - by rewrite section_items_bullets.
  - rewrite <- (app_assoc_s "**Sport:**" Str.nl).
    rewrite skip_contains by done. by apply no_marker_in_bullets.
  - rewrite skip_contains by done. by apply no_marker_in_bullets.
Qed.

Lemma template_stripped :
  extract_student_info (Str.strip (profile_text n a m d hs ss))
  = Ok (StudentInfo n age_ marks_ d (Str.join ", " hs) (Str.join ", " ss)).
Proof.
  rewrite profile_text_strip.
  rewrite (template_with n a m d hs _ Hn Ha Hm Hd Hhs age_ marks_ Eage Emarks).
  - by rewrite section_items_open_bullets.
  - by apply no_marker_in_open_bullets.
  - by apply (no_marker_in_open_bullets "*Sport:**" "").
Qed.
End TemplateRecords.

(** X9. A profile written on the template, with an age and marks of at
    most 4300 digits, is read back exactly: the name and the department as
    written, the age and the marks as the numbers their digits denote, the
    hobbies and the sports as their items joined with [", "]. The same
    holds for the text stripped of the whitespace around it, which is the
    text without its last line feed. *)
Theorem template_round_trip (n a m d : string) (hs ss : list string) :
  plain n -> digits a -> digits m -> plain d ->
  Forall plain hs -> Forall plain ss ->
  String.length a <= int_max_str_digits ->
  String.length m <= int_max_str_digits ->
  exists age_ marks_,
    int a = Ok age_ /\ int m = Ok marks_
    /\ extract_student_info (profile_text n a m d hs ss)
       = Ok (StudentInfo n age_ marks_ d (Str.join ", " hs) (Str.join ", " ss))
    /\ Str.strip (profile_text n a m d hs ss) +:+ Str.nl
       = profile_text n a m d hs ss
    /\ extract_student_info (Str.strip (profile_text n a m d hs ss))
       = Ok (StudentInfo n age_ marks_ d (Str.join ", " hs) (Str.join ", " ss)).
Proof.
  intros Hn Ha Hm Hd Hhs Hss Hla Hlm.
  destruct (int_digits_ok a (proj1 Ha) (proj2 Ha) Hla) as (age_ & Eage & _).
  destruct (int_digits_ok m (proj1 Hm) (proj2 Hm) Hlm) as (marks_ & Emarks & _).
  exists age_, marks_. split_and!; [done | done | | |].
  - by apply template_closed.
  - by rewrite profile_text_strip, <- profile_text_nl.
  - by apply template_stripped.
Qed.

Lemma template_round_trip_witness :
  exists age_ marks_,
    int "21" = Ok age_ /\ int "88" = Ok marks_
    /\ extract_student_info
         (profile_text "Asha Rao" "21" "88" "Computer Science"
            ["reading"; "swimming"] ["cricket"])
       = Ok (StudentInfo "Asha Rao" age_ marks_ "Computer Science"
               (Str.join ", " ["reading"; "swimming"]) (Str.join ", " ["cricket"]))
    /\ Str.strip (profile_text "Asha Rao" "21" "88" "Computer Science"
                    ["reading"; "swimming"] ["cricket"]) +:+ Str.nl
       = profile_text "Asha Rao" "21" "88" "Computer Science"
           ["reading"; "swimming"] ["cricket"]
    /\ extract_student_info
         (Str.strip (profile_text "Asha Rao" "21" "88" "Computer Science"
                       ["reading"; "swimming"] ["cricket"]))
       = Ok (StudentInfo "Asha Rao" age_ marks_ "Computer Science"
               (Str.join ", " ["reading"; "swimming"]) (Str.join ", " ["cricket"])).
Proof.
  apply (template_round_trip "Asha Rao" "21" "88" "Computer Science"
           ["reading"; "swimming"] ["cricket"]);
    try (unfold int_max_str_digits; simpl; lia);
    repeat constructor; try done;
    apply clean_ends_of_strip; vm_compute; reflexivity.
Defined.

Section FieldFacts.
Implicit Types (s text : string) (p f : ascii -> bool).

Lemma rstrip_by_all p f s :
  all_chars f s = true -> all_chars f (Str.rstrip_by p s) = true.
Proof.
  induction s as [|c s IH]; [done |]. simpl.
  intros [Hc Hs]%andb_prop. specialize (IH Hs).
  destruct (Str.rstrip_by p s) as [|b r].
  - destruct (p c); [done |]. simpl. by rewrite Hc.
  - simpl in *. by rewrite Hc, IH.
Qed.

Lemma strip_by_all p f s :
  all_chars f s = true -> all_chars f (Str.strip_by p s) = true.
Proof. intros Hs. by apply rstrip_by_all, lstrip_by_all. Qed.

(** A text field is on one line and has no whitespace at its ends. *)
Lemma extract_field_line lit text :
  all_chars Char.isdot (extract_field (Pattern lit Char.isdot) text "Unknown") = true
  /\ clean_ends Char.isspace
       (extract_field (Pattern lit Char.isdot) text "Unknown").
Proof.
  unfold extract_field. destruct (re_search _ text) as [g|] eqn:E.
  - apply re_search_Some in E as [_ Hg]. split.
    + by apply strip_by_all.
    + apply strip_by_clean.
  - split; [done |]. by apply clean_ends_of_strip.
Qed.

Lemma lstrip_by_blank p s : all_chars p s = true -> Str.lstrip_by p s = "".
Proof.
  induction s as [|c s IH]; [done |]. simpl.
  intros [-> Hs]%andb_prop. by apply IH.
Qed.
End FieldFacts.

(** X10. The age and the marks of a record the extractor returns are not
    negative; it returns one whenever no run of digits in the text is
    longer than the limit of [int]. *)
Theorem age_marks_nonnegative (text : string) :
  (digit_runs_within int_max_str_digits text ->
   exists info, extract_student_info text = Ok info)
  /\ forall info, extract_student_info text = Ok info ->
       (0 <= age info)%Z /\ (0 <= marks info)%Z.
Proof.
  split; [apply extract_student_info_returns |].
  intros info E.
  destruct (extract_student_info_Ok text info E)
    as (a & m & hs & ss & -> & Ha & _ & Hm & _ & _ & _).
  done.
Qed.

Lemma age_marks_nonnegative_witness :
  exists info, extract_student_info sample_profile = Ok info
               /\ (0 <= age info)%Z /\ (0 <= marks info)%Z.
Proof.
  destruct (age_marks_nonnegative sample_profile) as [Hret Hrec].
  destruct Hret as [info E]; [apply short_text_runs; vm_compute; lia |].
  exists info. split; [exact E | exact (Hrec info E)].
Defined.

(** X11. The name and the department of a record the extractor returns
    hold no line feed and neither begin nor end with whitespace; it
    returns one whenever no run of digits in the text is longer than the
    limit of [int]. *)
Theorem name_department_one_line (text : string) :
  (digit_runs_within int_max_str_digits text ->
   exists info, extract_student_info text = Ok info)
  /\ forall info, extract_student_info text = Ok info ->
       all_chars Char.isdot (name info) = true
       /\ clean_ends Char.isspace (name info)
       /\ all_chars Char.isdot (department info) = true
       /\ clean_ends Char.isspace (department info).
Proof.
  split; [apply extract_student_info_returns |].
  intros info E.
  destruct (extract_student_info_Ok text info E)
    as (a & m & hs & ss & -> & _ & _ & _ & _ & _ & _).
  simpl.
  destruct (extract_field_line "**Name:** " text) as [? ?].
  destruct (extract_field_line "**Department:** " text) as [? ?].
  done.
Qed.

Lemma name_department_one_line_witness :
  exists info, extract_student_info sample_profile = Ok info
    /\ all_chars Char.isdot (name info) = true
    /\ clean_ends Char.isspace (department info).
Proof.
  destruct (name_department_one_line sample_profile) as [Hret Hrec].
  destruct Hret as [info E]; [apply short_text_runs; vm_compute; lia |].
  destruct (Hrec info E) as (Hn & _ & _ & Hd).
  exists info. split; [exact E |]. split; [exact Hn | exact Hd].
Defined.

(** X12. A name made of whitespace only is read as the empty string, not
    as "Unknown": the default is for a label that is followed by nothing
    on its line. This holds in every record returned, and one is returned
    whenever no run of digits in the text is longer than the limit of
    [int]. *)
Theorem blank_name_is_empty (blank rest : string) :
  blank <> "" ->
  all_chars (fun c => Char.isspace c && Char.isdot c) blank = true ->
  (digit_runs_within int_max_str_digits
     ("**Name:** " +:+ blank +:+ Str.nl +:+ rest) ->
   exists info,
     extract_student_info ("**Name:** " +:+ blank +:+ Str.nl +:+ rest) = Ok info)
  /\ forall info,
       extract_student_info ("**Name:** " +:+ blank +:+ Str.nl +:+ rest) = Ok info ->
       name info = "".
Proof.
  intros Hne Hblank.
  split; [apply extract_student_info_returns |].
  intros info E.
  destruct (extract_student_info_Ok _ info E)
    as (a & m & hs & ss & -> & _).
  simpl.
  unfold extract_field, name_pattern. rewrite search_hit; [|done| |done].
  - unfold Str.strip, Str.strip_by. rewrite lstrip_by_blank; [done |].
    eapply all_chars_impl; [|exact Hblank]. by intros c [? _]%andb_prop.
  - eapply all_chars_impl; [|exact Hblank]. by intros c [_ ?]%andb_prop.
Qed.

Lemma blank_name_is_empty_witness :
  exists info,
    extract_student_info ("**Name:** " +:+ "  " +:+ Str.nl +:+ "**Age:** 20")
    = Ok info /\ name info = "".
Proof.
  destruct (blank_name_is_empty "  " "**Age:** 20") as [Hret Hrec];
    [done | vm_compute; reflexivity |].
  destruct Hret as [info E]; [apply short_text_runs; vm_compute; lia |].
  exists info. split; [exact E | exact (Hrec info E)].
Defined.

Section MarkerFacts.
Implicit Types (s sep before after mid tail : string).

Lemma partition_prefix sep s r :
  Str.removeprefix sep s = Some r -> Str.partition sep s = Some ("", r).
Proof. intros E. destruct s; simpl; by rewrite E. Qed.

Lemma partition_first sep s before after :
  first_split sep s before after -> Str.partition sep s = Some (before, after).
Proof.
  intros [-> Hmin]. induction before as [|c before IH].
  - apply partition_prefix. by rewrite app_nil_l_s, removeprefix_app.
  - rewrite app_cons_s in Hmin |- *.
    destruct (Str.removeprefix sep (String c (before +:+ sep +:+ after)))
      as [r|] eqn:E.
    + apply removeprefix_Some in E. specialize (Hmin "" r E). simpl in Hmin. lia.
    + simpl. simpl in E. rewrite E, IH; [done |].
      intros b a Hs. specialize (Hmin (String c b) a).
      rewrite app_cons_s, Hs in Hmin. specialize (Hmin eq_refl).
      simpl in Hmin. lia.
Qed.

Lemma partition_is_first sep s before after :
  Str.partition sep s = Some (before, after) -> first_split sep s before after.
Proof.
  intros E. split; [by apply partition_Some |].
  revert before E. induction s as [|c s IH]; intros before E b a Hs.
  - simpl in E. destruct (Str.removeprefix sep ""); [|done].
    injection E as <- _. simpl. lia.
  - simpl in E.
    destruct (Str.removeprefix sep (String c s)) as [r|] eqn:Er.
    + injection E as <- _. simpl. lia.
    + destruct (Str.partition sep s) as [[b0 a0]|] eqn:Ep; [|done].
      injection E as <- <-. destruct b as [|c' b].
      * rewrite app_nil_l_s in Hs. rewrite Hs, removeprefix_app in Er. done.
      * rewrite app_cons_s in Hs. injection Hs as _ Hs.
        specialize (IH b0 eq_refl b a Hs). simpl. lia.
Qed.

Lemma split_first sep s before after :
  sep <> "" -> first_split sep s before after ->
  Str.split sep s = before :: Str.split sep after.
Proof. intros Hsep Hs. by apply split_partition, partition_first. Qed.
End MarkerFacts.

(** X13. In a record the extractor returns, the sport field is read from
    the text between the first two [**Sport:**] markers, or from all the
    text after the marker when there is one only: what follows a second
    marker is ignored. A record is returned whenever no run of digits in
    the text is longer than the limit of [int]. *)
Theorem sport_between_markers (text before after : string) :
  first_split "**Sport:**" text before after ->
  (digit_runs_within int_max_str_digits text ->
   exists info, extract_student_info text = Ok info)
  /\ forall info, extract_student_info text = Ok info ->
       (~ occurs "**Sport:**" after ->
        sport info = Str.join ", " (section_items after))
       /\ (forall mid tail, first_split "**Sport:**" after mid tail ->
           sport info = Str.join ", " (section_items mid)).
Proof.
  intros Hfirst.
  split; [apply extract_student_info_returns |].
  intros info E.
  destruct (extract_student_info_Ok text info E)
    as (a & m & hs & ss & -> & _ & _ & _ & _ & _ & Es).
  simpl.
  unfold sports_items, index in Es.
  rewrite (split_first "**Sport:**" _ _ _ ltac:(done) Hfirst) in Es. split.
  - intros Hno%contains_false. rewrite (split_absent _ _ Hno) in Es.
    simpl in Es. by injection Es as <-.
  - intros mid tail Hsecond.
    rewrite (split_first "**Sport:**" _ _ _ ltac:(done) Hsecond) in Es.
    simpl in Es. by injection Es as <-.
Qed.

(** X14. In a record the extractor returns for a text with one
    [**Hobbies:**] marker, the hobbies are read from the text between it
    and the first [**Sport:**] marker that follows, also when that marker
    is part of an item. A record is returned whenever no run of digits in
    the text is longer than the limit of [int]. *)
Theorem hobbies_until_sport_marker (text before after mid tail : string) :
  first_split "**Hobbies:**" text before after ->
  ~ occurs "**Hobbies:**" after ->
  first_split "**Sport:**" after mid tail ->
  (digit_runs_within int_max_str_digits text ->
   exists info, extract_student_info text = Ok info)
  /\ forall info, extract_student_info text = Ok info ->
       hobbies info = Str.join ", " (section_items mid).
Proof.
  intros Hfirst Hno%contains_false Hsport.
  split; [apply extract_student_info_returns |].
  intros info E.
  destruct (extract_student_info_Ok text info E)
    as (a & m & hs & ss & -> & _ & _ & _ & _ & Eh & _).
  simpl.
  unfold hobbies_items, index in Eh.
  rewrite (split_first "**Hobbies:**" _ _ _ ltac:(done) Hfirst),
    (split_absent _ _ Hno) in Eh.
  simpl in Eh. rewrite (split_first "**Sport:**" _ _ _ ltac:(done) Hsport) in Eh.
  simpl in Eh. by injection Eh as <-.
Qed.

Lemma sport_between_markers_witness :
  exists info, extract_student_info profile_two_sports = Ok info
               /\ sport info = "cricket".
Proof.
  destruct (sport_between_markers profile_two_sports ""
              (Str.nl +:+ "* cricket" +:+ Str.nl +:+
               "**Sport:**" +:+ Str.nl +:+ "* chess"))
    as [Hret Hrec].
  { apply partition_is_first. vm_compute. reflexivity. }
  destruct Hret as [info E]; [apply short_text_runs; vm_compute; lia |].
  exists info. split; [exact E |].
  rewrite (proj2 (Hrec info E)
             (Str.nl +:+ "* cricket" +:+ Str.nl) (Str.nl +:+ "* chess")).
  - vm_compute. reflexivity.
  - apply partition_is_first. vm_compute. reflexivity.
Defined.

Lemma hobbies_until_sport_marker_witness :
  exists info, extract_student_info profile_marker_in_item = Ok info
               /\ hobbies info = "reading".
Proof.
  destruct (hobbies_until_sport_marker profile_marker_in_item ""
              (Str.nl +:+ "* reading **Sport:** pages" +:+ Str.nl +:+
               "**Sport:**" +:+ Str.nl +:+ "* chess")
              (Str.nl +:+ "* reading ")
              (" pages" +:+ Str.nl +:+ "**Sport:**" +:+ Str.nl +:+ "* chess"))
    as [Hret Hrec].
  - apply partition_is_first. vm_compute. reflexivity.
  - apply contains_false. vm_compute. reflexivity.
  - apply partition_is_first. vm_compute. reflexivity.
  - destruct Hret as [info E]; [apply short_text_runs; vm_compute; lia |].
    exists info. split; [exact E |]. rewrite (Hrec info E).
    vm_compute. reflexivity.
Defined.

(* ================================================================== *)
(** * The way from a reply to the table *)

(** X15. A reply without candidates gives no record and one warning; a
    first candidate without parts gives no record and nothing in the log;
    otherwise the stripped text of the first part of the first candidate
    is extracted: the record it gives is returned with nothing in the log,
    and when extraction raises, which takes a run of more than 4300
    digits, the error is logged and no record is returned. *)
Theorem generate_student_profile_cases (reply : response) :
  (candidates reply = [] ->
   generate_student_profile reply
   = (None, [LogWarning "No valid candidates found in the response."]))
  /\ (forall c cs, candidates reply = c :: cs ->
        content_parts c = None \/ content_parts c = Some [] ->
        generate_student_profile reply = (None, []))
  /\ (forall c cs p ps, candidates reply = c :: cs ->
        content_parts c = Some (p :: ps) ->
        (forall info, extract_student_info (Str.strip (text p)) = Ok info ->
           generate_student_profile reply = (Some info, []))
        /\ (forall e, extract_student_info (Str.strip (text p)) = Raise e ->
              e = ValueError
              /\ generate_student_profile reply = (None, [LogError ValueError]))
        /\ (digit_runs_within int_max_str_digits (text p) ->
            exists info, generate_student_profile reply = (Some info, []))).
Proof.
  split_and!.
  - intros Hc. unfold generate_student_profile. by rewrite Hc.
  - intros c cs Hc [Hp|Hp]; unfold generate_student_profile;
      rewrite Hc; simpl; by rewrite Hp.
  - intros c cs p ps Hc Hp.
    assert (forall info, extract_student_info (Str.strip (text p)) = Ok info ->
              generate_student_profile reply = (Some info, [])) as Hsome.
    { intros info E. unfold generate_student_profile. rewrite Hc. simpl.
      rewrite Hp. simpl. by rewrite E. }
    split_and!; [exact Hsome | |].
    + intros e E.
      destruct (extract_student_info_raises _ _ E) as [-> _].
      split; [done |]. unfold generate_student_profile. rewrite Hc. simpl.
      rewrite Hp. simpl. by rewrite E.
    + intros Hruns.
      destruct (extract_student_info_returns (Str.strip (text p))) as [info E].
      { eapply digit_runs_sub; [apply strip_by_occurs | exact Hruns]. }
      exists info. by apply Hsome.
Qed.

Lemma generate_student_profile_cases_witness :
  generate_student_profile (Response [Candidate None; Candidate (Some [Part "x"])])
  = (None, [])
  /\ (exists info, generate_student_profile (reply_with "  **Age:** 30  ")
                   = (Some info, []))
  /\ generate_student_profile (reply_with long_age_profile)
     = (None, [LogError ValueError]).
Proof.
  split_and!.
  - destruct (generate_student_profile_cases
                (Response [Candidate None; Candidate (Some [Part "x"])]))
      as (_ & Hnone & _).
    apply (Hnone (Candidate None) [Candidate (Some [Part "x"])]);
      [reflexivity | by left].
  - destruct (generate_student_profile_cases (reply_with "  **Age:** 30  "))
      as (_ & _ & Hsome).
    destruct (Hsome (Candidate (Some [Part "  **Age:** 30  "])) []
                (Part "  **Age:** 30  ") []) as (_ & _ & Hret);
      [reflexivity | reflexivity |].
    apply Hret. apply short_text_runs. vm_compute. lia.
  - destruct (generate_student_profile_cases (reply_with long_age_profile))
      as (_ & _ & Hsome).
    destruct (Hsome (Candidate (Some [Part long_age_profile])) []
                (Part long_age_profile) []) as (_ & Hraise & _);
      [reflexivity | reflexivity |].
    apply (Hraise ValueError). vm_compute. reflexivity.
Defined.

Section InsertFacts.
Context `{RowIds}.
Implicit Types (table : list row) (replies : list response).

Lemma row_student_insert table student :
  storable student = true ->
  exists record, insert_student table student = Ok (table ++ [record])
                 /\ row_student record = student.
Proof.
  unfold storable, insert_student. intros ->.
  eexists. split; [reflexivity |]. by destruct student.
Qed.

Lemma insert_overflow table student :
  storable student = false -> insert_student table student = Raise OverflowError.
Proof. unfold storable, insert_student. by intros ->. Qed.

Lemma insert_generated_records_cons table reply replies :
  insert_generated_records table (reply :: replies)
  = match (generate_student_profile reply).1 with
    | None =>
        let '(outcome, warnings) := insert_generated_records table replies in
        (outcome,
         "Could not generate a student profile. Skipping record." :: warnings)
    | Some student =>
        match insert_student table student with
        | Ok table' => insert_generated_records table' replies
        | Raise e => (Raise e, [])
        end
    end.
Proof. reflexivity. Qed.
End InsertFacts.

Section DigitBound.
Implicit Types (s : string) (acc z : Z).

Lemma digit_value_below c : Char.isdigit c = true -> (Char.digit_value c <= 9)%Z.
Proof.
  unfold Char.isdigit, Char.digit_value.
  intros [_ H]%andb_prop. apply N.leb_le in H. lia.
Qed.

Lemma int_digits_below s acc b z :
  all_chars Char.isdigit s = true -> (0 <= acc)%Z ->
  int_digits acc b s = Some z ->
  (z < (acc + 1) * 10 ^ Z.of_nat (String.length s))%Z.
Proof.
  revert acc b. induction s as [|c s IH]; intros acc b; simpl String.length.
  - simpl. destruct b; [|done]. intros _ _ [= <-]. lia.
  - simpl all_chars. intros [Hc Hs]%andb_prop Hacc. simpl int_digits.
    rewrite Hc. intros E.
    pose proof (digit_value_nonneg c Hc). pose proof (digit_value_below c Hc).
    apply IH in E; [|done|lia].
    rewrite Nat2Z.inj_succ, Z.pow_succ_r by lia.
    pose proof (Z.pow_pos_nonneg 10 (Z.of_nat (String.length s))
                  ltac:(lia) ltac:(lia)).
    nia.
Qed.

(** A run of [k] digits denotes a number below [10 ^ k]. *)
Lemma int_below g z :
  digits g -> int g = Ok z -> (z < 10 ^ Z.of_nat (String.length g))%Z.
Proof.
  intros [Hne Hall]. unfold int.
  rewrite (int_space_run g Hall).
  destruct (_ <? _)%nat; [done |].
  destruct (int_literal g) as [z'|] eqn:E; [|done]. intros [= <-].
  destruct g as [|c r]; [done |].
  pose proof Hall as [Hc _]%andb_prop. unfold int_literal in E.
  destruct (isdigit_plain c Hc) as (_ & Hminus & Hplus).
  rewrite Hminus, Hplus in E.
  apply int_digits_below in E; [|done|lia]. lia.
Qed.

Lemma sqlite_integer_below k z :
  k <= 18 -> (0 <= z < 10 ^ Z.of_nat k)%Z -> sqlite_integer z = true.
Proof.
  intros Hk [H0 Hz]. unfold sqlite_integer.
  assert (10 ^ Z.of_nat k <= 10 ^ 18)%Z
    by (apply Z.pow_le_mono_r; lia).
  apply andb_true_intro. split; [apply Z.leb_le | apply Z.ltb_lt]; lia.
Qed.
End DigitBound.

(** X16. When every record the replies give fits the table (its age and
    marks are 64-bit integers), the loop keeps the rows of the table and
    appends one row for each reply that gives a record, in the order of
    the replies and with the six fields of the record in its six data
    columns; each other reply gives one warning. When some record does not
    fit, the loop ends with [OverflowError] and nothing is committed. *)
Theorem inserted_rows `{RowIds} (table : list row) (replies : list response) :
  (forallb storable
     (omap (fun reply => (generate_student_profile reply).1) replies) = true ->
   exists new,
     (insert_generated_records table replies).1 = Ok (table ++ new)
     /\ row_student <$> new
        = omap (fun reply => (generate_student_profile reply).1) replies
     /\ length new + length (insert_generated_records table replies).2
        = length replies)
  /\ (forallb storable
        (omap (fun reply => (generate_student_profile reply).1) replies) = false ->
      (insert_generated_records table replies).1 = Raise OverflowError).
Proof.
  revert table. induction replies as [|reply replies IH]; intros table.
  - split; [|done]. intros _. exists []. simpl. by rewrite app_nil_r.
  - rewrite insert_generated_records_cons. csimpl.
    destruct (generate_student_profile reply).1 as [student|] eqn:E.
    + simpl forallb. destruct (storable student) eqn:Es.
      * destruct (row_student_insert table student Es) as (record & -> & Hrecord).
        destruct (IH (table ++ [record])) as [Hok Hover]. split.
        -- intros Hall. destruct (Hok Hall) as (new & E1 & E2 & E3).
           exists (record :: new). split_and!.
           ++ by rewrite E1, <- app_assoc.
           ++ csimpl. by rewrite Hrecord, E2.
           ++ simpl. lia.
        -- exact Hover.
      * rewrite (insert_overflow table student Es). split; done.
    + destruct (IH table) as [Hok Hover].
      destruct (insert_generated_records table replies) as [outcome warnings].
      split.
      * intros Hall. destruct (Hok Hall) as (new & E1 & E2 & E3).
        exists new. simpl in *. split_and!; [done | done | lia].
      * exact Hover.
Qed.

Lemma inserted_rows_witness :
  (exists new,
     (@insert_generated_records largest_id_plus_one sample_rows
        [reply_with "**Age:** 30"; Response []]).1 = Ok (sample_rows ++ new)
     /\ length new = 1)
  /\ (@insert_generated_records largest_id_plus_one sample_rows
        [Response []; reply_with "**Age:** 9223372036854775808"]).1
     = Raise OverflowError.
Proof.
  destruct (@inserted_rows largest_id_plus_one sample_rows
              [reply_with "**Age:** 30"; Response []]) as [Hok _].
  destruct (@inserted_rows largest_id_plus_one sample_rows
              [Response []; reply_with "**Age:** 9223372036854775808"])
    as [_ Hover].
  split.
  - destruct Hok as (new & E1 & E2 & _); [vm_compute; reflexivity |].
    exists new. split; [exact E1 |].
    apply (f_equal length) in E2. rewrite length_fmap in E2. exact E2.
  - apply Hover. vm_compute. reflexivity.
Defined.

(** X17. A reply whose first part holds a profile written on the template,
    with an age and marks of at most 4300 digits, becomes one row with the
    values of the profile, behind the rows the table had, provided the age
    and the marks are below [2 ^ 63], as they are with at most 18 digits;
    fetching returns that row, and when the hobbies are free of commas the
    hobby tokens that questions are answered from are the hobbies of the
    profile. With an age or marks of [2 ^ 63] or more the insertion raises
    [OverflowError]. *)
Theorem template_reply_stored `{RowIds} (table : list row) (reply : response)
    (c : candidate) (cs : list candidate) (p : part) (ps : list part)
    (n a m d : string) (hs ss : list string) :
  candidates reply = c :: cs ->
  content_parts c = Some (p :: ps) ->
  text p = profile_text n a m d hs ss ->
  plain n -> digits a -> digits m -> plain d ->
  Forall plain hs -> Forall plain ss ->
  String.length a <= int_max_str_digits ->
  String.length m <= int_max_str_digits ->
  exists age_ marks_ record,
    int a = Ok age_ /\ int m = Ok marks_
    /\ record = Row (new_id table) n age_ marks_ d
                  (Str.join ", " hs) (Str.join ", " ss)
    /\ (String.length a <= 18 -> String.length m <= 18 ->
        (age_ < 2 ^ 63)%Z /\ (marks_ < 2 ^ 63)%Z)
    /\ ((age_ < 2 ^ 63)%Z /\ (marks_ < 2 ^ 63)%Z ->
        insert_generated_records table [reply] = (Ok (table ++ [record]), [])
        /\ (forall committed,
              (insert_generated_records table [reply]).1 = Ok committed ->
              fetch_records committed = table ++ [record])
        /\ (hs <> [] -> Forall token_like hs -> tokens [HOBBY record] = hs))
    /\ (~ ((age_ < 2 ^ 63)%Z /\ (marks_ < 2 ^ 63)%Z) ->
        insert_generated_records table [reply] = (Raise OverflowError, [])).
Proof.
  intros Hc Hp Htext Hn Ha Hm Hd Hhs Hss Hla Hlm.
  destruct (int_digits_ok a (proj1 Ha) (proj2 Ha) Hla) as (age_ & Eage & Hage).
  destruct (int_digits_ok m (proj1 Hm) (proj2 Hm) Hlm) as (marks_ & Emarks & Hmarks).
  assert ((generate_student_profile reply).1
          = Some (StudentInfo n age_ marks_ d (Str.join ", " hs)
                    (Str.join ", " ss))) as Egen.
  { unfold generate_student_profile. rewrite Hc. simpl.
    rewrite Hp. simpl. rewrite Htext.
    by rewrite (template_stripped n a m d hs ss age_ marks_). }
  eexists age_, marks_, _. split_and!; [done | done | reflexivity | | |].
  - intros Ha18 Hm18.
    pose proof (int_below a age_ Ha Eage) as Hba.
    pose proof (int_below m marks_ Hm Emarks) as Hbm.
    pose proof (sqlite_integer_below _ age_ Ha18 (conj Hage Hba)) as Hsa.
    pose proof (sqlite_integer_below _ marks_ Hm18 (conj Hmarks Hbm)) as Hsm.
    unfold sqlite_integer in Hsa, Hsm.
    apply andb_prop in Hsa as [_ Hsa%Z.ltb_lt].
    apply andb_prop in Hsm as [_ Hsm%Z.ltb_lt]. done.
  - intros [Hsa Hsm].
    assert (insert_generated_records table [reply]
            = (Ok (table ++ [Row (new_id table) n age_ marks_ d
                               (Str.join ", " hs) (Str.join ", " ss)]), []))
      as Estored.
    { rewrite insert_generated_records_cons, Egen.
      unfold insert_student, sqlite_integer. simpl age. simpl marks.
      rewrite (proj2 (Z.leb_le _ age_)), (proj2 (Z.ltb_lt age_ _)),
        (proj2 (Z.leb_le _ marks_)), (proj2 (Z.ltb_lt marks_ _)) by lia.
      reflexivity. }
    split_and!; [exact Estored | |].
    + intros committed. rewrite Estored. by intros [= <-].
    + intros Hne Htokens. simpl. unfold tokens. csimpl.
      rewrite app_nil_r. by apply (split_join "" hs).
  - intros Hbig.
    rewrite insert_generated_records_cons, Egen.
    rewrite insert_overflow; [done |].
    unfold storable, sqlite_integer. simpl age. simpl marks.
    apply andb_false_iff.
    destruct (Z.lt_ge_cases age_ (2 ^ 63)) as [Hsa|Hsa].
    + right. apply andb_false_iff. right. apply Z.ltb_ge. lia.
    + left. apply andb_false_iff. right. by apply Z.ltb_ge.
Qed.

Lemma template_reply_stored_witness :
  exists age_ marks_ record,
    int "21" = Ok age_ /\ int "88" = Ok marks_
    /\ record = Row (@new_id largest_id_plus_one sample_rows) "Dana" age_ marks_
                  "Physics" (Str.join ", " ["chess"; "go"]) (Str.join ", " [])
    /\ @insert_generated_records largest_id_plus_one sample_rows
         [reply_with (profile_text "Dana" "21" "88" "Physics" ["chess"; "go"] [])]
       = (Ok (sample_rows ++ [record]), [])
    /\ tokens [HOBBY record] = ["chess"; "go"].
Proof.
  destruct (@template_reply_stored largest_id_plus_one sample_rows
              (reply_with (profile_text "Dana" "21" "88" "Physics"
                             ["chess"; "go"] []))
              (Candidate (Some [Part (profile_text "Dana" "21" "88" "Physics"
                                        ["chess"; "go"] [])])) []
              (Part (profile_text "Dana" "21" "88" "Physics" ["chess"; "go"] []))
              [] "Dana" "21" "88" "Physics" ["chess"; "go"] [])
    as (age_ & marks_ & record & Ea & Em & Er & Hsmall & Hstored & _);
    try reflexivity;
    try (unfold int_max_str_digits; simpl; lia);
    try (repeat constructor; try done;
         apply clean_ends_of_strip; vm_compute; reflexivity).
  destruct Hstored as (Ei & _ & Ht); [apply Hsmall; simpl; lia |].
  exists age_, marks_, record. split_and!; try done.
  apply Ht; [done |].
  repeat constructor; try done;
    apply clean_ends_of_strip; vm_compute; reflexivity.
Defined.
